(** * The UDP file-transfer client (PSI/Client/Client/Client.cpp)

    A shallow embedding of the sender: the frame checksum [crc32c], the
    big-endian encoder [intToBytes], the control exchange [sendString] and
    the transfer sequence of [_tmain], followed by theorems about the frames
    put on the wire, the retry policy and the rate adaptation. *)

From Stdlib Require Import Strings.Byte Strings.String DecimalString.
From Stdlib Require Import ZArith List Lia Bool.
From Stdlib Require Import Floats.SpecFloat.
Import ListNotations.
Open Scope Z_scope.

(** ** Bytes, characters and fixed-size arrays

    A [char] array is a list of [byte]s of the array's length; a [uint32_t],
    an [int] and a [size_t] are integers, with the wrap-around written out
    where the program can reach it. *)

(** [(unsigned char)c]. *)
Definition uchar (c : byte) : Z := Z.of_N (Byte.to_N c).

(** The value of a plain [char].  The program is built with the Microsoft
    compiler (stdafx.h, winsock2.h, _tmain), whose plain [char] is signed. *)
Definition schar (c : byte) : Z :=
  if uchar c <? 128 then uchar c else uchar c - 256.

(** Conversion of an integer to [unsigned char]: the low eight bits. *)
Definition to_byte (n : Z) : byte :=
  match Byte.of_N (Z.to_N (n mod 256)) with
  | Some b => b
  | None => x00
  end.

(** Conversion to [uint32_t]. *)
Definition u32 (n : Z) : Z := n mod 2 ^ 32.

(** [~x] on a [uint32_t]. *)
Definition not32 (x : Z) : Z := Z.lxor x 0xffffffff.

(** [a[i] = v].  The program never stores out of range at the places that
    use this; like stdpp's insert, the model leaves the array unchanged there. *)
Fixpoint upd (i : nat) (v : byte) (a : list byte) : list byte :=
  match a, i with
  | [], _ => []
  | _ :: t, O => v :: t
  | h :: t, S j => h :: upd j v t
  end.

(** [a[i]]. *)
Definition at_ (a : list byte) (i : nat) : byte := nth i a x00.

(** [for (i = lo; i < lo + n; i++) body], threading the state [s]. *)
Fixpoint for_loop {St : Type} (n : nat) (lo : nat) (body : nat -> St -> St) (s : St) : St :=
  match n with
  | O => s
  | S n' => for_loop n' (S lo) body (body lo s)
  end.

(** An array of [n] elements whose [i]-th element is [f i]: used for
    [ZeroMemory] and for the indeterminate contents of an array that is
    declared without an initialiser. *)
Definition array_of (n : nat) (f : nat -> byte) : list byte := map f (seq 0 n).

Definition ZeroMemory (n : nat) : list byte := array_of n (fun _ => x00).

(** The C string stored at the start of [m]: the bytes before the first NUL. *)
Fixpoint c_str (m : list byte) : list byte :=
  match m with
  | [] => []
  | c :: t => if Byte.eqb c x00 then [] else c :: c_str t
  end.

(** A string literal of the source as bytes. *)
Definition lit (s : string) : list byte := list_byte_of_string s.

(** [strncmp(a, p, n) == 0] for a literal [p] of exactly [n] non-NUL
    characters: the first [n] characters of [a] are those of [p]. *)
Fixpoint has_prefix (p a : list byte) : bool :=
  match p, a with
  | [], _ => true
  | _ :: _, [] => false
  | x :: p', y :: a' => Byte.eqb x y && has_prefix p' a'
  end.

(** ** CRC (lines 23-39) *)

(** CRC-32C (iSCSI) polynomial in reversed bit order. *)
Definition POLY : Z := 0x82f63b78.

(** [crc = crc & 1 ? (crc >> 1) ^ POLY : crc >> 1]. *)
Definition crc_shift (crc : Z) : Z :=
  if Z.testbit crc 0 then Z.lxor (Z.shiftr crc 1) POLY else Z.shiftr crc 1.

(** The body of the [while]: [crc ^= *buf++] followed by the eight shifts.
    [*buf] is a plain [char]: it is promoted to [int] and then converted to
    [uint32_t], so a byte of 0x80 and above is sign-extended before the xor. *)
Definition crc_step (crc : Z) (c : byte) : Z :=
  for_loop 8 0 (fun _ => crc_shift) (Z.lxor crc (u32 (schar c))).

(** [while (len--) { ... }]. *)
Fixpoint crc_while (len : nat) (buf : list byte) (crc : Z) : Z :=
  match len, buf with
  | S len', c :: buf' => crc_while len' buf' (crc_step crc c)
  | _, _ => crc
  end.

Definition crc32c (crc : Z) (buf : list byte) (len : nat) : Z :=
  let crc := not32 crc in
  let crc := crc_while len buf crc in
  not32 crc.

(** The checksum as the specification words it: CRC-32C, the standard
    bit-reflected algorithm over the octets of the message (each octet a
    value 0..255), with the reversed Castagnoli polynomial and initial and
    final one's-complement. *)
Definition crc32c_spec_step (crc : Z) (c : byte) : Z :=
  for_loop 8 0 (fun _ => crc_shift) (Z.lxor crc (uchar c)).

Definition crc32c_spec (msg : list byte) : Z :=
  not32 (fold_left crc32c_spec_step msg (not32 0)).

(** ** intToBytes (lines 72-79) *)

Definition intToBytes (paramInt : Z) : list byte :=
  let arrayOfByte := array_of 4 (fun _ => x00) in
  for_loop 4 0
    (fun i arrayOfByte =>
       upd (3 - i) (to_byte (Z.shiftr paramInt (Z.of_nat i * 8))) arrayOfByte)
    arrayOfByte.

(** ** The digest of md5.h *)

(** Modelled from the spec: md5.h, which declares [md5], is not among the
    sources.  The specification calls its result the standard content digest
    of the bytes, as a hex string: this module is MD5 (RFC 1321), and [hex]
    prints a digest as 32 lower-case hexadecimal digits. *)
Module MD5.

Definition K : list Z :=
  [0xd76aa478; 0xe8c7b756; 0x242070db; 0xc1bdceee; 0xf57c0faf; 0x4787c62a; 0xa8304613; 0xfd469501;
   0x698098d8; 0x8b44f7af; 0xffff5bb1; 0x895cd7be; 0x6b901122; 0xfd987193; 0xa679438e; 0x49b40821;
   0xf61e2562; 0xc040b340; 0x265e5a51; 0xe9b6c7aa; 0xd62f105d; 0x02441453; 0xd8a1e681; 0xe7d3fbc8;
   0x21e1cde6; 0xc33707d6; 0xf4d50d87; 0x455a14ed; 0xa9e3e905; 0xfcefa3f8; 0x676f02d9; 0x8d2a4c8a;
   0xfffa3942; 0x8771f681; 0x6d9d6122; 0xfde5380c; 0xa4beea44; 0x4bdecfa9; 0xf6bb4b60; 0xbebfbc70;
   0x289b7ec6; 0xeaa127fa; 0xd4ef3085; 0x04881d05; 0xd9d4d039; 0xe6db99e5; 0x1fa27cf8; 0xc4ac5665;
   0xf4292244; 0x432aff97; 0xab9423a7; 0xfc93a039; 0x655b59c3; 0x8f0ccc92; 0xffeff47d; 0x85845dd1;
   0x6fa87e4f; 0xfe2ce6e0; 0xa3014314; 0x4e0811a1; 0xf7537e82; 0xbd3af235; 0x2ad7d2bb; 0xeb86d391].

Definition shifts : list Z :=
  [7; 12; 17; 22; 7; 12; 17; 22; 7; 12; 17; 22; 7; 12; 17; 22;
   5; 9; 14; 20; 5; 9; 14; 20; 5; 9; 14; 20; 5; 9; 14; 20;
   4; 11; 16; 23; 4; 11; 16; 23; 4; 11; 16; 23; 4; 11; 16; 23;
   6; 10; 15; 21; 6; 10; 15; 21; 6; 10; 15; 21; 6; 10; 15; 21].

Definition rotl (x n : Z) : Z :=
  u32 (Z.lor (Z.shiftl x n) (Z.shiftr x (32 - n))).

(** A 32-bit word as four bytes, least significant first. *)
Definition le4 (x : Z) : list Z :=
  [x mod 256; (x / 2 ^ 8) mod 256; (x / 2 ^ 16) mod 256; (x / 2 ^ 24) mod 256].

Definition word_of (bs : list Z) : Z :=
  nth 0 bs 0 + 2 ^ 8 * nth 1 bs 0 + 2 ^ 16 * nth 2 bs 0 + 2 ^ 24 * nth 3 bs 0.

(** Padding: a 1 bit, zeros up to 56 modulo 64, the bit length on 64 bits. *)
Definition pad (msg : list Z) : list Z :=
  let len := Z.of_nat (length msg) in
  let zeros := Z.to_nat ((55 - len) mod 64) in
  let bits := (8 * len) mod 2 ^ 64 in
  msg ++ [0x80] ++ repeat 0 zeros ++ le4 (bits mod 2 ^ 32) ++ le4 (bits / 2 ^ 32).

Definition round (M : list Z) (i : nat) (st : Z * Z * Z * Z) : Z * Z * Z * Z :=
  let '(A, B, C, D) := st in
  let '(F, g) :=
    if (i <? 16)%nat then (Z.lor (Z.land B C) (Z.land (not32 B) D), i)
    else if (i <? 32)%nat then (Z.lor (Z.land D B) (Z.land (not32 D) C), (5 * i + 1) mod 16)%nat
    else if (i <? 48)%nat then (Z.lxor (Z.lxor B C) D, (3 * i + 5) mod 16)%nat
    else (Z.lxor C (Z.lor B (not32 D)), (7 * i) mod 16)%nat in
  let F := u32 (F + A + nth i K 0 + nth g M 0) in
  (D, u32 (B + rotl F (nth i shifts 0)), B, C).

Definition block (st : Z * Z * Z * Z) (blk : list Z) : Z * Z * Z * Z :=
  let M := map (fun j => word_of (firstn 4 (skipn (4 * j) blk))) (seq 0 16) in
  let '(a0, b0, c0, d0) := st in
  let '(A, B, C, D) := for_loop 64 0 (round M) st in
  (u32 (a0 + A), u32 (b0 + B), u32 (c0 + C), u32 (d0 + D)).

Fixpoint blocks (n : nat) (st : Z * Z * Z * Z) (bs : list Z) : Z * Z * Z * Z :=
  match n with
  | O => st
  | S n' => blocks n' (block st (firstn 64 bs)) (skipn 64 bs)
  end.

Definition digest (msg : list byte) : list Z :=
  let p := pad (map uchar msg) in
  let '(a, b, c, d) :=
    blocks (length p / 64) (0x67452301, 0xefcdab89, 0x98badcfe, 0x10325476) p in
  le4 a ++ le4 b ++ le4 c ++ le4 d.

Definition hex_digit (n : Z) : byte :=
  nth (Z.to_nat n) (lit "0123456789abcdef") x30.

Definition hex (bs : list Z) : list byte :=
  flat_map (fun b => [hex_digit (b / 16); hex_digit (b mod 16)]) bs.

End MD5.

(** Modelled from the spec: [md5] of md5.h, the standard content digest of
    a string as a hex string. *)
Definition md5 (str : list byte) : list byte := MD5.hex (MD5.digest str).

(** ** Single-precision arithmetic of the delay (lines 114 and 230) *)

(** [round(((float)4096 / bps) * 1000)] is evaluated in IEEE 754 binary32
    (24 bits of precision, largest exponent 128), every operation rounding to
    nearest even; [round] rounds halfway cases away from zero, and the result
    is converted to [unsigned int]. *)
Module F32.

Definition prec : Z := 24.
Definition emax : Z := 128.

(** Conversion of an integer to [float]. *)
Definition of_Z (n : Z) : spec_float := binary_normalize prec emax n 0 false.

Definition div : spec_float -> spec_float -> spec_float := SFdiv prec emax.
Definition mul : spec_float -> spec_float -> spec_float := SFmul prec emax.

(** The integer that [round] returns, for a finite argument. *)
Definition round (x : spec_float) : option Z :=
  match x with
  | S754_zero _ => Some 0
  | S754_finite s m e =>
      let n :=
        if 0 <=? e then Z.pos m * 2 ^ e
        else
          let d := 2 ^ (- e) in
          let q := Z.pos m / d in
          if d <=? 2 * (Z.pos m mod d) then q + 1 else q in
      Some (if s then - n else n)
  | S754_infinity _ | S754_nan => None
  end.

(** Conversion of the rounded value to [unsigned int]: undefined when the
    value is not representable (and for an infinity or a NaN). *)
Definition to_unsigned (r : option Z) : option Z :=
  match r with
  | Some n => if (0 <=? n) && (n <? 2 ^ 32) then Some n else None
  | None => None
  end.

End F32.

(** [round(((float)4096 / bps) * 1000)] as an [unsigned int]; [None] where
    the conversion has no defined result. *)
Definition delay_of_rate (bps : Z) : option Z :=
  F32.to_unsigned
    (F32.round (F32.mul (F32.div (F32.of_Z 4096) (F32.of_Z bps)) (F32.of_Z 1000))).

(** ** Formatted output *)

Definition percent : byte := "%"%byte.

(** The characters [sprintf(buffer, fmt)] produces when it is given no
    argument after the format: ordinary characters are copied, [%%] gives one
    [%], and any other conversion specification would fetch an argument that
    was not passed, which has no defined behaviour ([None]). *)
Fixpoint format (fmt : list byte) : option (list byte) :=
  match fmt with
  | [] => Some []
  | c :: rest =>
      if Byte.eqb c percent then
        match rest with
        | c' :: rest' =>
            if Byte.eqb c' percent then option_map (cons percent) (format rest')
            else None
        | [] => None
        end
      else option_map (cons c) (format rest)
  end.

(** Storing the produced characters and the terminating NUL at the start of
    the destination array; writing past its end is undefined ([None]). *)
Definition store_string (dst out : list byte) : option (list byte) :=
  if (List.length out + 1 <=? List.length dst)%nat
  then Some (out ++ [x00] ++ skipn (List.length out + 1) dst)
  else None.

(** [sprintf(dst, s)]: the format is the C string at [s]. *)
Definition sprintf (dst s : list byte) : option (list byte) :=
  match format (c_str s) with
  | Some out => store_string dst out
  | None => None
  end.

(** [%ld] applied to a [size_t]: a [long] has 32 bits, so the low 32 bits of
    the value are printed as a signed decimal number. *)
Definition print_ld (n : Z) : list byte :=
  let l := u32 n in
  let l := if l <? 2 ^ 31 then l else l - 2 ^ 32 in
  lit (NilZero.string_of_int (Z.to_int l)).

(** ** Reading the input file *)

(** [ReadAllBytes] (lines 55-70) opens the file with [ios::binary] and
    returns its bytes as they are. *)
Definition ReadAllBytes (file : list byte) : list byte := file.

(** The stream of line 142 is opened without [ios::binary].  On this
    platform such a stream is read in text mode: a carriage return followed
    by a line feed is delivered as the line feed alone, and Ctrl-Z (0x1A)
    ends the input. *)
Fixpoint text_mode_read (file : list byte) : list byte :=
  match file with
  | [] => []
  | c :: rest =>
      if Byte.eqb c x1a then []
      else if Byte.eqb c x0d then
        match rest with
        | x0a :: _ => text_mode_read rest
        | _ => c :: text_mode_read rest
        end
      else c :: text_mode_read rest
  end.

(** ** The network, the global state and the effects *)

(** What happens at one [sendto]/[recvfrom] attempt. *)
Inductive attempt : Type :=
| SendError                 (* sendto returns SOCKET_ERROR *)
| RecvError                 (* recvfrom returns SOCKET_ERROR, nothing stored *)
| Reply (d : list byte).    (* recvfrom stores the datagram d *)

(** What the program does not control: the fate of the [n]-th attempt, and
    the indeterminate contents of the arrays it declares without
    initialising them ([back_buff] of [sendString], by the number of frames
    sent before the call; [buffer2] and [backbuffer] of [_tmain]). *)
Record environment : Type := {
  net : nat -> attempt;
  back_buff_junk : nat -> nat -> byte;
  buffer2_junk : nat -> byte;
  backbuffer_junk : nat -> byte
}.

(** The global [sleep_time], the datagrams passed to [sendto] so far and the
    durations passed to [sleep_for] so far, both oldest first. *)
Record world : Type := {
  sleep_time : Z;
  sent : list (list byte);
  naps : list Z
}.

Definition initial_world : world :=
  {| sleep_time := 0; sent := []; naps := [] |}.

(** How a run ends: with a result, at an operation that has no defined
    behaviour (with the world as it was when the operation was reached), or
    because the model was given too little fuel. *)
Inductive outcome (A : Type) : Type :=
| Ret (a : A) (w : world)
| Undefined (w : world)
| OutOfFuel.
Arguments Ret {A} a w.
Arguments Undefined {A} w.
Arguments OutOfFuel {A}.

(** The datagrams handed to [sendto] by the end of a run. *)
Definition sent_of {A : Type} (o : outcome A) : option (list (list byte)) :=
  match o with
  | Ret _ w | Undefined w => Some (sent w)
  | OutOfFuel => None
  end.

Definition M (A : Type) : Type := world -> outcome A.

(** The three ways the program changes the world. *)
Definition with_sent (w : world) (frames : list (list byte)) : world :=
  {| sleep_time := sleep_time w; sent := sent w ++ frames; naps := naps w |}.

Definition with_delay (w : world) (d : Z) : world :=
  {| sleep_time := d; sent := sent w; naps := naps w |}.

Definition with_nap (w : world) : world :=
  {| sleep_time := sleep_time w; sent := sent w; naps := naps w ++ [sleep_time w] |}.

Definition ret {A : Type} (a : A) : M A := fun w => Ret a w.

Definition bind {A B : Type} (c : M A) (k : A -> M B) : M B :=
  fun w =>
    match c w with
    | Ret a w' => k a w'
    | Undefined w' => Undefined w'
    | OutOfFuel => OutOfFuel
    end.

Definition defined {A : Type} (o : option A) : M A :=
  fun w => match o with Some a => Ret a w | None => Undefined w end.

Declare Scope client_scope.
Delimit Scope client_scope with client.
Notation "x <- c ;; k" := (bind c (fun x => k))
  (at level 61, c at next level, right associativity) : client_scope.
Notation "c ;; k" := (bind c (fun _ => k))
  (at level 61, right associativity) : client_scope.
Open Scope client_scope.

Section Client.

Variable E : environment.

(** [sendto(socketC, buf, sizeof(buf), ...) != SOCKET_ERROR]. *)
Definition sendto (buf : list byte) : M bool :=
  fun w =>
    Ret (match net E (List.length (sent w)) with SendError => false | _ => true end)
        (with_sent w [buf]).

(** [recvfrom(socketC, buf, sizeof(buf), ...) != SOCKET_ERROR], with the
    array after the call.  A datagram is stored from the start of the array
    and leaves the bytes after it as they were; one that is longer than the
    array is cut to its size and reported as an error (WSAEMSGSIZE). *)
Definition recvfrom (buf : list byte) : M (bool * list byte) :=
  fun w =>
    match net E (Nat.pred (List.length (sent w))) with
    | Reply d =>
        Ret ((List.length d <=? List.length buf)%nat,
             firstn (List.length buf) d ++ skipn (List.length d) buf) w
    | _ => Ret (false, buf) w
    end.

(** [std::this_thread::sleep_for(std::chrono::milliseconds(sleep_time))]. *)
Definition sleep_for : M unit :=
  fun w => Ret tt (with_nap w).

(** The rate hint of a reply: bytes 4 to 7, most significant first. *)
Definition rate_hint (back_buff : list byte) : Z :=
  for_loop 4 0
    (fun n bps => u32 (Z.shiftl bps 8 + uchar (at_ back_buff (n + 4)))) 0.

(** "adjust speed if needed" (lines 110-115 and 226-232). *)
Definition adjust_speed (back_buff : list byte) : M unit :=
  if has_prefix (lit "OKSS") back_buff then
    let bps := rate_hint back_buff in
    fun w =>
      match delay_of_rate bps with
      | Some d => Ret tt (with_delay w d)
      | None => Undefined w
      end
  else ret tt.

(** The frame trailer (lines 92-98 and 215-221). *)
Definition put_crc (buffer : list byte) : list byte :=
  let crc := 0 in
  let crc := crc32c crc buffer 4092 in
  let crc_bytes := intToBytes crc in
  for_loop 4 4092 (fun i buffer => upd i (at_ crc_bytes (i - 4092)) buffer) buffer.

(** The [do ... while] of [sendString] (lines 101-118). *)
Fixpoint sendString_loop (fuel : nat) (tries : Z) (buffer back_buff : list byte)
  : M (Z * list byte) :=
  match fuel with
  | O => fun _ => OutOfFuel
  | S fuel' =>
      let tries := tries + 1 in
      sent_ok <- sendto buffer ;;
      back_buff <-
        (if sent_ok : bool then
           r <- recvfrom back_buff ;;
           if fst r then
             let back_buff := upd 15 x00 (snd r) in
             adjust_speed back_buff ;;
             ret back_buff
           else ret (snd r)
         else ret back_buff) ;;
      if negb (has_prefix (lit "OK") back_buff) && negb (tries =? 8)
      then sendString_loop fuel' tries buffer back_buff
      else ret (tries, back_buff)
  end.

(** Lines 86-98 of [sendString]: the frame, built in the zeroed [buffer]. *)
Definition control_frame (s : list byte) : option (list byte) :=
  let buffer := ZeroMemory 4096 in
  match sprintf buffer s with
  | Some buffer => Some (put_crc buffer)
  | None => None
  end.

(** [sendString] (lines 82-122). *)
Definition sendString (s : list byte) : M bool :=
  fun w =>
    let tries := 0 in
    let back_buff := array_of 16 (back_buff_junk E (List.length (sent w))) in
    (buffer <- defined (control_frame s) ;;
     r <- sendString_loop 8 tries buffer back_buff ;;
     ret (fst r <? 8)) w.

(** The [do ... while] of the streaming loop (lines 224-242). *)
Fixpoint data_loop (fuel : nat) (tries : Z) (buffer2 backbuffer : list byte)
  : M (Z * list byte) :=
  match fuel with
  | O => fun _ => OutOfFuel
  | S fuel' =>
      adjust_speed backbuffer ;;
      let tries := tries + 1 in
      sent_ok <- sendto buffer2 ;;
      backbuffer <-
        (if sent_ok : bool then
           r <- recvfrom backbuffer ;;
           if fst r then ret (upd 15 x00 (snd r)) else ret (snd r)
         else ret backbuffer) ;;
      if negb (has_prefix (lit "OK") backbuffer) && negb (tries =? 8)
      then data_loop fuel' tries buffer2 backbuffer
      else ret (tries, backbuffer)
  end.

(** Lines 202-221: the data frame for [offset], built in [buffer2]. *)
Definition data_frame (file_bytes : list byte) (offset : Z) (buffer2 : list byte)
  : list byte :=
  let size := Z.of_nat (List.length file_bytes) in
  let buffer2 := upd 0 "D"%byte buffer2 in
  let buffer2 := upd 1 "A"%byte buffer2 in
  let buffer2 := upd 2 "T"%byte buffer2 in
  let buffer2 := upd 3 "A"%byte buffer2 in
  let offset_bytes := intToBytes offset in
  let buffer2 :=
    for_loop 4 0 (fun i buffer2 => upd (i + 4) (at_ offset_bytes i) buffer2) buffer2 in
  let count := if 4096 - 12 <? size - offset then 4096 - 12 else size - offset in
  let buffer2 :=
    for_loop (Z.to_nat count) 0
      (fun i buffer2 => upd (i + 8) (at_ file_bytes (i + Z.to_nat offset)) buffer2)
      buffer2 in
  put_crc buffer2.

(** The [while (offset < file_bytes.size())] of lines 201-250; the result is
    [false] when the program leaves through [exit(1)]. *)
Fixpoint stream (fuel : nat) (file_bytes : list byte) (offset : Z)
    (buffer2 backbuffer : list byte) : M bool :=
  match fuel with
  | O => fun _ => OutOfFuel
  | S fuel' =>
      if offset <? Z.of_nat (List.length file_bytes) then
        let buffer2 := data_frame file_bytes offset buffer2 in
        let tries := 0 in
        r <- data_loop 8 tries buffer2 backbuffer ;;
        if fst r =? 8 then ret false
        else
          let offset := u32 (offset + (4096 - 12)) in
          let buffer2 := ZeroMemory 4096 in
          sleep_for ;;
          stream fuel' file_bytes offset buffer2 (snd r)
      else ret true
  end.

(** How [_tmain] ends. *)
Inductive ending : Type :=
| NameError | SizeError | HashError | StartError   (* "Error sending ..." *)
| DataError                                        (* exit(1) *)
| StopError
| Completed.

(** [_tmain] (lines 126-262) for an input file with the bytes [file] and the
    destination name [fname]; [fuel] bounds the iterations of the streaming
    loop. *)
Definition _tmain (fuel : nat) (file fname : list byte) : M ending :=
  let str2 := text_mode_read file in
  let hashed := md5 str2 in
  let file_bytes := ReadAllBytes file in
  (* send file name *)
  let str := ZeroMemory 120 in
  str <- defined (store_string str (lit "NAME=" ++ c_str fname)) ;;
  ok <- sendString str ;;
  if negb ok then ret NameError else
  (* send file size *)
  let str := ZeroMemory 120 in
  str <- defined (store_string str
                    (lit "SIZE=" ++ print_ld (Z.of_nat (List.length file_bytes)))) ;;
  ok <- sendString str ;;
  if negb ok then ret SizeError else
  (* send file hash *)
  let str := ZeroMemory 120 in
  str <- defined (store_string str (lit "HASH=")) ;;
  let str :=
    for_loop (List.length hashed) 0 (fun i str => upd (i + 5) (at_ hashed i) str) str in
  let str := upd (5 + List.length hashed) x00 str in
  ok <- sendString str ;;
  if negb ok then ret HashError else
  (* start file transmit *)
  let str := ZeroMemory 120 in
  str <- defined (store_string str (lit "START")) ;;
  ok <- sendString str ;;
  if negb ok then ret StartError else
  (* transmit *)
  let offset := 0 in
  let buffer2 := array_of 4096 (buffer2_junk E) in
  let backbuffer := array_of 16 (backbuffer_junk E) in
  ok <- stream fuel file_bytes offset buffer2 backbuffer ;;
  if negb ok then ret DataError else
  (* end file transmit *)
  let str := ZeroMemory 120 in
  str <- defined (store_string str (lit "STOP")) ;;
  ok <- sendString str ;;
  if negb ok then ret StopError else
  ret Completed.

End Client.

(** ** Vocabulary of the statements *)

(** An attempt that brings no acknowledgment: nothing is received, or the
    datagram received does not begin with [OK].  (A datagram of one byte is
    left out: it replaces only the first byte of the reply array.) *)
Definition nonack (a : attempt) : Prop :=
  match a with
  | Reply d => has_prefix (lit "OK") d = false /\ List.length d <> 1%nat
  | _ => True
  end.

(** An acknowledgment frame: 16 bytes that begin with [OK]. *)
Definition ack (d : list byte) : Prop :=
  List.length d = 16%nat /\ has_prefix (lit "OK") d = true.

(** A plain acknowledgment: [OK] not followed by [SS]. *)
Definition plain_ack (d : list byte) : Prop :=
  ack d /\ has_prefix (lit "OKSS") d = false.

(** Bytes read most significant first. *)
Definition big_endian (bs : list byte) : Z :=
  fold_left (fun acc b => 256 * acc + uchar b) bs 0.

(** An acknowledgment with the rate hint [bps]: [OKSS], then [bps] on bytes
    4 to 7, most significant first. *)
Definition rate_ack (bps : Z) (d : list byte) : Prop :=
  List.length d = 16%nat /\ has_prefix (lit "OKSS") d = true /\
  big_endian (firstn 4 (skipn 4 d)) = bps.

(** The content of a reply array carries no rate hint whose delay
    [unsigned int] cannot hold. *)
Definition hint_defined (b : list byte) : Prop :=
  has_prefix (lit "OKSS") b = true -> delay_of_rate (rate_hint b) <> None.

(** A body followed by the four bytes that [put_crc] computes for it. *)
Definition framed (b : list byte) : list byte :=
  b ++ intToBytes (crc32c 0 b 4092).

(** A command followed by NUL bytes up to the 4092 bytes of a body. *)
Definition padded (s : list byte) : list byte :=
  s ++ repeat x00 (4092 - List.length s).

(** The body of a frame and its trailer. *)
Definition body (frame : list byte) : list byte := firstn 4092 frame.
Definition trailer (frame : list byte) : list byte := skipn 4092 frame.

(** The delay that the specification words: 4096 / bps * 1000 rounded to the
    nearest integer, halfway cases up, in exact arithmetic. *)
Definition delay_spec (bps : Z) : Z := (2 * 4096000 + bps) / (2 * bps).

(** ** Concrete peers *)

(** An environment in which every array without initialiser holds [junk]. *)
Definition peer (replies : nat -> attempt) (junk : byte) : environment :=
  {| net := replies;
     back_buff_junk := fun _ _ => junk;
     buffer2_junk := fun _ => junk;
     backbuffer_junk := fun _ => junk |}.

(** [OK] and fourteen NUL bytes. *)
Definition OK_reply : list byte := lit "OK" ++ repeat x00 14.

(** [OKSS], the rate on four bytes, eight NUL bytes. *)
Definition OKSS_reply (bps : Z) : list byte :=
  lit "OKSS" ++ intToBytes bps ++ repeat x00 8.

(** The destination name of line 135. *)
Definition out_txt : list byte := lit "D:\out.txt".

(** A text file of [n] letters. *)
Definition letters (n : Z) : list byte := repeat "a"%byte (Z.to_nat n).

(** The peer that acknowledges every attempt. *)
Definition all_OK : nat -> attempt := fun _ => Reply OK_reply.

(** The peer that acknowledges every attempt but attempt [n], for which
    [a] happens. *)
Definition all_OK_but (n : nat) (a : attempt) : nat -> attempt :=
  fun i => if Nat.eqb i n then a else Reply OK_reply.

(** The peer that acknowledges attempt [n] with [d] and lets every other
    attempt fail at [recvfrom]. *)
Definition silent_but (n : nat) (d : list byte) : nat -> attempt :=
  fun i => if Nat.eqb i n then Reply d else RecvError.

(** The check value of CRC-32C, on the ASCII digits 1 to 9. *)
Example crc32c_spec_check : crc32c_spec (lit "123456789") = 0xE3069283.
Proof. vm_compute. reflexivity. Qed.

Example crc32c_check : crc32c 0 (lit "123456789") 9 = 0xE3069283.
Proof. vm_compute. reflexivity. Qed.

Example intToBytes_8168 : intToBytes 8168 = [x00; x00; x1f; xe8].
Proof. vm_compute. reflexivity. Qed.

Example crc32c_high_byte :
  crc32c 0 [xe8] 1 <> crc32c_spec [xe8].
Proof. vm_compute. discriminate. Qed.

Example md5_hello : md5 (lit "hello") = lit "5d41402abc4b2a76b9719d911017c592".
Proof. vm_compute. reflexivity. Qed.

Example md5_empty : md5 [] = lit "d41d8cd98f00b204e9800998ecf8427e".
Proof. vm_compute. reflexivity. Qed.

Example md5_two_blocks :
  md5 (repeat "a"%byte 70) = lit "0f5c6c4e740bfcc08c3c26ccb2673d46".
Proof. vm_compute. reflexivity. Qed.

(** ** Arrays *)

Lemma upd_length (i : nat) (v : byte) (a : list byte) :
  List.length (upd i v a) = List.length a.
Proof.
  revert i; induction a as [|h t IH]; intros [|j]; simpl; auto.
Qed.

Lemma array_of_length (n : nat) (f : nat -> byte) :
  List.length (array_of n f) = n.
Proof. unfold array_of. now rewrite length_map, length_seq. Qed.

Lemma ZeroMemory_length (n : nat) : List.length (ZeroMemory n) = n.
Proof. apply array_of_length. Qed.

Lemma ZeroMemory_repeat (n : nat) : ZeroMemory n = repeat x00 n.
Proof.
  unfold ZeroMemory, array_of. generalize 0%nat.
  induction n as [|n IH]; intros k; simpl; [reflexivity|now rewrite IH].
Qed.

Lemma has_prefix_OK (b : list byte) :
  has_prefix (lit "OK") b =
  match b with
  | x :: y :: _ => Byte.eqb "O" x && Byte.eqb "K" y
  | _ => false
  end.
Proof.
  destruct b as [|x [|y t]]; simpl; try reflexivity.
  - now rewrite andb_false_r.
  - now rewrite andb_true_r.
Qed.

Lemma OKSS_is_OK (b : list byte) :
  has_prefix (lit "OKSS") b = true -> has_prefix (lit "OK") b = true.
Proof.
  rewrite has_prefix_OK.
  destruct b as [|x [|y t]]; simpl; try discriminate.
  - now rewrite andb_false_r.
  - intros H. apply andb_prop in H as [Hx H]. apply andb_prop in H as [Hy _].
    now rewrite Hx, Hy.
Qed.

Lemma not_OK_not_OKSS (b : list byte) :
  has_prefix (lit "OK") b = false -> has_prefix (lit "OKSS") b = false.
Proof.
  intros H. destruct (has_prefix (lit "OKSS") b) eqn:HS; [|reflexivity].
  apply OKSS_is_OK in HS. congruence.
Qed.

(** Storing the terminating NUL at index 15 leaves the first bytes alone. *)
Lemma has_prefix_upd15 (p b : list byte) :
  (List.length p <= 15)%nat ->
  has_prefix p (upd 15 x00 b) = has_prefix p b.
Proof.
  generalize 15%nat as n. revert b.
  induction p as [|x p IH]; intros b n Hn.
  - reflexivity.
  - destruct b as [|y b]; [now destruct n|].
    destruct n as [|n]; [simpl in Hn; lia|].
    simpl. f_equal. apply IH. simpl in Hn. lia.
Qed.

Lemma rate_hint_upd15 (b : list byte) :
  rate_hint (upd 15 x00 b) = rate_hint b.
Proof.
  unfold rate_hint, at_.
  do 8 (destruct b as [|? b]; [reflexivity|]).
  reflexivity.
Qed.

(** The reply array after a datagram [d] has been stored in it. *)
Lemma stored_length (d bb : list byte) :
  List.length (firstn (List.length bb) d ++ skipn (List.length d) bb)
  = List.length bb.
Proof.
  rewrite length_app, length_firstn, length_skipn. lia.
Qed.

Lemma stored_full (d bb : list byte) :
  List.length d = List.length bb ->
  firstn (List.length bb) d ++ skipn (List.length d) bb = d.
Proof.
  intros H. rewrite <- H, firstn_all, H, skipn_all. apply app_nil_r.
Qed.

Lemma stored_nonack (d bb : list byte) :
  List.length bb = 16%nat ->
  has_prefix (lit "OK") bb = false ->
  has_prefix (lit "OK") d = false -> List.length d <> 1%nat ->
  has_prefix (lit "OK") (firstn (List.length bb) d ++ skipn (List.length d) bb)
  = false.
Proof.
  intros Hl Hb Hd H1. rewrite Hl.
  destruct d as [|x [|y t]]; simpl in *; try assumption; congruence.
Qed.

Lemma upd_nil (i : nat) (v : byte) : upd i v [] = [].
Proof. now destruct i. Qed.

Lemma firstn_upd_S (m : nat) (v : byte) (l : list byte) :
  (m < List.length l)%nat -> firstn (S m) (upd m v l) = firstn m l ++ [v].
Proof.
  revert l. induction m as [|m IH]; intros [|h t] H; simpl in H; try lia.
  - reflexivity.
  - cbn [upd]. rewrite firstn_cons, (IH t) by lia. reflexivity.
Qed.

Lemma skipn_upd_gt (i m : nat) (v : byte) (l : list byte) :
  (m < i)%nat -> skipn i (upd m v l) = skipn i l.
Proof.
  revert m l. induction i as [|i IH]; intros m l H; [lia|].
  destruct l as [|h t]; [now rewrite upd_nil|].
  destruct m as [|m]; cbn [upd skipn]; [reflexivity|].
  apply IH. lia.
Qed.

(** A loop that stores [g i] at index [i + k]. *)
Lemma for_loop_fill (g : nat -> byte) (k n : nat) :
  forall (lo : nat) (dst : list byte),
    (lo + k + n <= List.length dst)%nat ->
    for_loop n lo (fun i b => upd (i + k) (g i) b) dst
    = firstn (lo + k) dst ++ map g (seq lo n) ++ skipn (lo + k + n) dst.
Proof.
  induction n as [|n IH]; intros lo dst H.
  - cbn [for_loop seq map app]. rewrite Nat.add_0_r. symmetry. apply firstn_skipn.
  - cbn [for_loop seq map].
    rewrite IH by (rewrite upd_length; lia).
    change (S lo + k)%nat with (S (lo + k)).
    rewrite firstn_upd_S by lia.
    rewrite skipn_upd_gt by lia.
    rewrite <- app_assoc. cbn [app].
    replace (S (lo + k) + n)%nat with (lo + k + S n)%nat by lia.
    reflexivity.
Qed.

Lemma for_loop_ext {St : Type} (f g : nat -> St -> St) (n : nat) :
  forall (lo : nat) (s : St),
    (forall i x, (lo <= i < lo + n)%nat -> f i x = g i x) ->
    for_loop n lo f s = for_loop n lo g s.
Proof.
  induction n as [|n IH]; intros lo s H; cbn [for_loop]; [reflexivity|].
  rewrite H by lia. apply IH. intros i x Hi. apply H. lia.
Qed.

(** Reading [n] consecutive elements is taking a slice. *)
Lemma map_at_slice (src : list byte) (n : nat) :
  forall j : nat,
    (j + n <= List.length src)%nat ->
    map (fun i => at_ src (i + j)) (seq 0 n) = firstn n (skipn j src).
Proof.
  induction n as [|n IH]; intros j H; [reflexivity|].
  cbn [seq map]. rewrite <- seq_shift, map_map.
  destruct (skipn j src) as [|h t] eqn:Hs.
  - apply (f_equal (@List.length byte)) in Hs. rewrite length_skipn in Hs.
    simpl in Hs. lia.
  - cbn [firstn]. f_equal.
    + unfold at_. cbn [Nat.add].
      rewrite <- (firstn_skipn j src) at 1.
      rewrite app_nth2 by (rewrite length_firstn; lia).
      rewrite length_firstn, Hs.
      replace (j - Nat.min j (List.length src))%nat with 0%nat by lia.
      reflexivity.
    + assert (Ht : t = skipn (S j) src).
      { change (S j) with (1 + j)%nat. rewrite <- skipn_skipn, Hs. reflexivity. }
      rewrite Ht, <- (IH (S j)) by lia.
      apply map_ext. intros i. f_equal. lia.
Qed.

Lemma firstn_repeat_le (n k : nat) (x : byte) :
  (k <= n)%nat -> firstn k (repeat x n) = repeat x k.
Proof.
  revert n. induction k as [|k IH]; intros [|n] H; simpl; try reflexivity; try lia.
  rewrite IH by lia. reflexivity.
Qed.

Lemma skipn_repeat_le (n k : nat) (x : byte) :
  skipn k (repeat x n) = repeat x (n - k).
Proof.
  revert n. induction k as [|k IH]; intros [|n]; simpl; try reflexivity.
  apply IH.
Qed.

(** ** Frames *)

Lemma intToBytes_eq (n : Z) :
  intToBytes n =
  [to_byte (Z.shiftr n 24); to_byte (Z.shiftr n 16);
   to_byte (Z.shiftr n 8); to_byte (Z.shiftr n 0)].
Proof. reflexivity. Qed.

Lemma intToBytes_length (n : Z) : List.length (intToBytes n) = 4%nat.
Proof. reflexivity. Qed.

Lemma crc_while_firstn (len : nat) :
  forall (buf : list byte) (crc : Z),
    crc_while len (firstn len buf) crc = crc_while len buf crc.
Proof.
  induction len as [|len IH]; intros [|c buf] crc; simpl; auto.
Qed.

Lemma crc32c_firstn (buf : list byte) (len : nat) :
  crc32c 0 (firstn len buf) len = crc32c 0 buf len.
Proof. unfold crc32c. now rewrite crc_while_firstn. Qed.

(** The loop that stores the four checksum bytes behind the first [n]. *)
Lemma put_trailer (cb buffer : list byte) (n : nat) :
  List.length cb = 4%nat ->
  List.length buffer = (n + 4)%nat ->
  for_loop 4 n (fun i b => upd i (at_ cb (i - n)) b) buffer = firstn n buffer ++ cb.
Proof.
  intros Hc Hb.
  rewrite (for_loop_ext _ (fun i b => upd (i + 0) (at_ cb (i - n)) b))
    by (intros i x _; now rewrite Nat.add_0_r).
  rewrite for_loop_fill by lia.
  rewrite Nat.add_0_r, skipn_all2, app_nil_r by lia.
  f_equal. do 5 (destruct cb as [|? cb]; try discriminate Hc).
  cbn [seq map]. unfold at_.
  rewrite Nat.sub_diag.
  replace (S n - n)%nat with 1%nat by lia.
  replace (S (S n) - n)%nat with 2%nat by lia.
  replace (S (S (S n)) - n)%nat with 3%nat by lia.
  reflexivity.
Qed.

Lemma put_crc_spec (buffer : list byte) :
  List.length buffer = 4096%nat ->
  put_crc buffer =
  firstn 4092 buffer ++ intToBytes (crc32c 0 (firstn 4092 buffer) 4092).
Proof.
  intros H. unfold put_crc.
  rewrite put_trailer by (try apply intToBytes_length; rewrite H; reflexivity).
  now rewrite crc32c_firstn.
Qed.

Lemma for_loop_upd_length (j : nat -> nat) (h : nat -> byte) (n : nat) :
  forall (lo : nat) (a : list byte),
    List.length (for_loop n lo (fun i b => upd (j i) (h i) b) a) = List.length a.
Proof.
  induction n as [|n IH]; intros lo a; cbn [for_loop]; [reflexivity|].
  rewrite IH. apply upd_length.
Qed.

Lemma put_crc_length (buffer : list byte) :
  List.length (put_crc buffer) = List.length buffer.
Proof.
  unfold put_crc.
  apply (for_loop_upd_length (fun i => i)
           (fun i => at_ (intToBytes (crc32c 0 buffer 4092)) (i - 4092))).
Qed.

(** The data frame: tag, offset, the next [count] bytes of the file, what the
    array held behind them, and the checksum of these 4092 bytes. *)
Lemma data_frame_spec (file_bytes buffer2 : list byte) (offset : Z) (count : nat) :
  List.length buffer2 = 4096%nat ->
  0 <= offset < Z.of_nat (List.length file_bytes) ->
  count = Z.to_nat (Z.min 4084 (Z.of_nat (List.length file_bytes) - offset)) ->
  data_frame file_bytes offset buffer2 =
  let b := lit "DATA" ++ intToBytes offset
           ++ firstn count (skipn (Z.to_nat offset) file_bytes)
           ++ firstn (4084 - count) (skipn (8 + count) buffer2) in
  b ++ intToBytes (crc32c 0 b 4092).
Proof.
  intros Hlen Hoff Hcount.
  assert (Hc : (count <= 4084)%nat) by lia.
  assert (Hf : (Z.to_nat offset + count <= List.length file_bytes)%nat) by lia.
  unfold data_frame.
  replace (if 4096 - 12 <? Z.of_nat (List.length file_bytes) - offset
           then 4096 - 12 else Z.of_nat (List.length file_bytes) - offset)
    with (Z.min 4084 (Z.of_nat (List.length file_bytes) - offset)).
  2:{ change (4096 - 12) with 4084.
      destruct (4084 <? Z.of_nat (List.length file_bytes) - offset) eqn:Hlt; lia. }
  rewrite <- Hcount.
  do 8 (destruct buffer2 as [|? buffer2]; [discriminate Hlen|]).
  assert (Hrest : List.length buffer2 = 4088%nat).
  { cbn [List.length] in Hlen. lia. }
  cbn [upd for_loop Nat.add].
  rewrite for_loop_fill by (cbn [List.length Nat.add]; lia).
  rewrite map_at_slice by lia.
  cbn [Nat.add firstn skipn app].
  rewrite put_crc_spec.
  2:{ cbn [List.length]. rewrite length_app, length_firstn, !length_skipn. lia. }
  rewrite intToBytes_eq. unfold at_. cbn [nth lit list_byte_of_string app].
  set (chunk := firstn count (skipn (Z.to_nat offset) file_bytes)).
  assert (Hchunk : List.length chunk = count).
  { unfold chunk. rewrite length_firstn, length_skipn. lia. }
  replace 4092%nat with (8 + (List.length chunk + (4084 - count)))%nat by lia.
  cbn [Nat.add firstn].
  rewrite firstn_app_2.
  reflexivity.
Qed.

(** ** The exchange loops *)

Lemma with_sent_app (w : world) (l1 l2 : list (list byte)) :
  with_sent (with_sent w l1) l2 = with_sent w (l1 ++ l2).
Proof. unfold with_sent; simpl. now rewrite app_assoc. Qed.

Lemma with_sent_nil (w : world) : with_sent w [] = w.
Proof. destruct w; unfold with_sent; simpl. now rewrite app_nil_r. Qed.

Lemma pred_length_sent (w : world) (buf : list byte) :
  Nat.pred (List.length (sent (with_sent w [buf]))) = List.length (sent w).
Proof. simpl. rewrite length_app. simpl. lia. Qed.

Lemma length_sent_with_sent (w : world) (l : list (list byte)) :
  List.length (sent (with_sent w l)) = (List.length (sent w) + List.length l)%nat.
Proof. simpl. apply length_app. Qed.

Section Exchange.

Variable E : environment.

(** One turn of the loop of [sendString] whose attempt brings no
    acknowledgment: the frame is handed to [sendto], nothing else changes,
    and the reply array still does not begin with [OK]. *)
Lemma sendString_loop_nonack (fuel : nat) (tries : Z) (buffer bb : list byte) (w : world) :
  List.length bb = 16%nat ->
  has_prefix (lit "OK") bb = false ->
  nonack (net E (List.length (sent w))) ->
  exists bb',
    List.length bb' = 16%nat /\ has_prefix (lit "OK") bb' = false /\
    sendString_loop E (S fuel) tries buffer bb w =
    (if tries + 1 =? 8 then ret (tries + 1, bb')
     else sendString_loop E fuel (tries + 1) buffer bb') (with_sent w [buffer]).
Proof.
  intros Hl Hb Hn.
  cbn [sendString_loop]. unfold bind at 1. unfold sendto.
  destruct (net E (List.length (sent w))) as [| |d] eqn:Ha.
  - exists bb. repeat split; auto.
    unfold bind, ret. rewrite Hb. simpl. now destruct (tries + 1 =? 8).
  - exists bb. repeat split; auto.
    unfold bind, ret, recvfrom. rewrite pred_length_sent, Ha.
    cbn [fst snd]. rewrite Hb. simpl. now destruct (tries + 1 =? 8).
  - destruct Hn as [Hd H1].
    pose proof (stored_nonack d bb Hl Hb Hd H1) as Hs.
    pose proof (stored_length d bb) as Hsl.
    set (st := firstn (List.length bb) d ++ skipn (List.length d) bb) in *.
    destruct (List.length d <=? List.length bb)%nat eqn:Hle.
    + exists (upd 15 x00 st). rewrite upd_length, has_prefix_upd15 by (simpl; lia).
      repeat split; try congruence.
      unfold bind, ret, recvfrom. rewrite pred_length_sent, Ha. fold st.
      rewrite Hle. cbn [fst snd]. unfold adjust_speed.
      rewrite has_prefix_upd15 by (simpl; lia).
      rewrite (not_OK_not_OKSS _ Hs). unfold ret.
      rewrite has_prefix_upd15 by (simpl; lia). rewrite Hs. simpl.
      now destruct (tries + 1 =? 8).
    + exists st. repeat split; try congruence.
      unfold bind, ret, recvfrom. rewrite pred_length_sent, Ha. fold st.
      rewrite Hle. cbn [fst snd]. rewrite Hs. simpl.
      now destruct (tries + 1 =? 8).
Qed.

(** [k] attempts without acknowledgment, while the limit is not reached. *)
Lemma sendString_loop_nonacks (k fuel : nat) (tries : Z) (buffer bb : list byte) (w : world) :
  List.length bb = 16%nat ->
  has_prefix (lit "OK") bb = false ->
  tries + Z.of_nat k < 8 ->
  (forall i, (i < k)%nat -> nonack (net E (List.length (sent w) + i))) ->
  exists bb',
    List.length bb' = 16%nat /\ has_prefix (lit "OK") bb' = false /\
    sendString_loop E (k + fuel) tries buffer bb w =
    sendString_loop E fuel (tries + Z.of_nat k) buffer bb' (with_sent w (repeat buffer k)).
Proof.
  revert tries bb w. induction k as [|k IH]; intros tries bb w Hl Hb Ht Hn.
  - exists bb. rewrite with_sent_nil, Z.add_0_r. auto.
  - destruct (sendString_loop_nonack (k + fuel) tries buffer bb w Hl Hb)
      as (bb1 & Hl1 & Hb1 & Heq).
    { specialize (Hn 0%nat). rewrite Nat.add_0_r in Hn. apply Hn. lia. }
    destruct (IH (tries + 1) bb1 (with_sent w [buffer]) Hl1 Hb1) as (bb2 & Hl2 & Hb2 & Heq2).
    { lia. }
    { intros i Hi. rewrite length_sent_with_sent. simpl.
      replace (List.length (sent w) + 1 + i)%nat with (List.length (sent w) + S i)%nat by lia.
      apply Hn. lia. }
    exists bb2. repeat split; auto.
    change (S k + fuel)%nat with (S (k + fuel)). rewrite Heq.
    destruct (tries + 1 =? 8) eqn:H8; [lia|].
    rewrite Heq2, with_sent_app. simpl.
    f_equal. lia.
Qed.

(** One turn of the loop of [sendString] whose attempt is answered by an
    acknowledgment: the loop ends there, whatever the count of tries. *)
Lemma sendString_loop_ack (fuel : nat) (tries : Z) (buffer bb d : list byte) (w : world) :
  List.length bb = 16%nat ->
  net E (List.length (sent w)) = Reply d ->
  ack d ->
  sendString_loop E (S fuel) tries buffer bb w =
  if has_prefix (lit "OKSS") d then
    match delay_of_rate (rate_hint d) with
    | Some delay => Ret (tries + 1, upd 15 x00 d) (with_delay (with_sent w [buffer]) delay)
    | None => Undefined (with_sent w [buffer])
    end
  else Ret (tries + 1, upd 15 x00 d) (with_sent w [buffer]).
Proof.
  intros Hl Ha [Hd Hok].
  cbn [sendString_loop]. unfold bind at 1. unfold sendto. rewrite Ha.
  unfold bind at 1. unfold bind at 1. unfold recvfrom.
  rewrite pred_length_sent, Ha, stored_full by congruence.
  rewrite Hl, Hd. cbn [Nat.leb fst snd].
  unfold bind at 1. unfold adjust_speed.
  rewrite has_prefix_upd15, rate_hint_upd15 by (simpl; lia).
  destruct (has_prefix (lit "OKSS") d).
  - destruct (delay_of_rate (rate_hint d)); [|reflexivity].
    unfold ret. rewrite has_prefix_upd15, Hok by (simpl; lia). reflexivity.
  - unfold ret. rewrite has_prefix_upd15, Hok by (simpl; lia). reflexivity.
Qed.

Lemma sendString_unfold (s f : list byte) (w : world) :
  control_frame s = Some f ->
  sendString E s w =
  match sendString_loop E 8 0 f (array_of 16 (back_buff_junk E (List.length (sent w)))) w with
  | Ret r w' => Ret (fst r <? 8) w'
  | Undefined w' => Undefined w'
  | OutOfFuel => OutOfFuel
  end.
Proof.
  intros Hf. unfold sendString. rewrite Hf. reflexivity.
Qed.

(** The same turns for the loop of the streaming phase. *)
Lemma data_loop_nonack (fuel : nat) (tries : Z) (buffer2 bb : list byte) (w : world) :
  List.length bb = 16%nat ->
  has_prefix (lit "OK") bb = false ->
  nonack (net E (List.length (sent w))) ->
  exists bb',
    List.length bb' = 16%nat /\ has_prefix (lit "OK") bb' = false /\
    data_loop E (S fuel) tries buffer2 bb w =
    (if tries + 1 =? 8 then ret (tries + 1, bb')
     else data_loop E fuel (tries + 1) buffer2 bb') (with_sent w [buffer2]).
Proof.
  intros Hl Hb Hn.
  cbn [data_loop]. unfold bind at 1. unfold adjust_speed.
  rewrite (not_OK_not_OKSS _ Hb). unfold ret at 1.
  unfold bind at 1. unfold sendto.
  destruct (net E (List.length (sent w))) as [| |d] eqn:Ha.
  - exists bb. repeat split; auto.
    unfold bind, ret. rewrite Hb. simpl. now destruct (tries + 1 =? 8).
  - exists bb. repeat split; auto.
    unfold bind, ret, recvfrom. rewrite pred_length_sent, Ha.
    cbn [fst snd]. rewrite Hb. simpl. now destruct (tries + 1 =? 8).
  - destruct Hn as [Hd H1].
    pose proof (stored_nonack d bb Hl Hb Hd H1) as Hs.
    pose proof (stored_length d bb) as Hsl.
    set (st := firstn (List.length bb) d ++ skipn (List.length d) bb) in *.
    destruct (List.length d <=? List.length bb)%nat eqn:Hle.
    + exists (upd 15 x00 st). rewrite upd_length, has_prefix_upd15 by (simpl; lia).
      repeat split; try congruence.
      unfold bind, ret, recvfrom. rewrite pred_length_sent, Ha. fold st.
      rewrite Hle. cbn [fst snd].
      rewrite has_prefix_upd15 by (simpl; lia). rewrite Hs. simpl.
      now destruct (tries + 1 =? 8).
    + exists st. repeat split; try congruence.
      unfold bind, ret, recvfrom. rewrite pred_length_sent, Ha. fold st.
      rewrite Hle. cbn [fst snd]. rewrite Hs. simpl.
      now destruct (tries + 1 =? 8).
Qed.

Lemma data_loop_nonacks (k fuel : nat) (tries : Z) (buffer2 bb : list byte) (w : world) :
  List.length bb = 16%nat ->
  has_prefix (lit "OK") bb = false ->
  tries + Z.of_nat k < 8 ->
  (forall i, (i < k)%nat -> nonack (net E (List.length (sent w) + i))) ->
  exists bb',
    List.length bb' = 16%nat /\ has_prefix (lit "OK") bb' = false /\
    data_loop E (k + fuel) tries buffer2 bb w =
    data_loop E fuel (tries + Z.of_nat k) buffer2 bb' (with_sent w (repeat buffer2 k)).
Proof.
  revert tries bb w. induction k as [|k IH]; intros tries bb w Hl Hb Ht Hn.
  - exists bb. rewrite with_sent_nil, Z.add_0_r. auto.
  - destruct (data_loop_nonack (k + fuel) tries buffer2 bb w Hl Hb)
      as (bb1 & Hl1 & Hb1 & Heq).
    { specialize (Hn 0%nat). rewrite Nat.add_0_r in Hn. apply Hn. lia. }
    destruct (IH (tries + 1) bb1 (with_sent w [buffer2]) Hl1 Hb1) as (bb2 & Hl2 & Hb2 & Heq2).
    { lia. }
    { intros i Hi. rewrite length_sent_with_sent. simpl.
      replace (List.length (sent w) + 1 + i)%nat with (List.length (sent w) + S i)%nat by lia.
      apply Hn. lia. }
    exists bb2. repeat split; auto.
    change (S k + fuel)%nat with (S (k + fuel)). rewrite Heq.
    destruct (tries + 1 =? 8) eqn:H8; [lia|].
    rewrite Heq2, with_sent_app. simpl.
    f_equal. lia.
Qed.

(** A turn that starts on a reply array without rate hint and is answered by
    an acknowledgment: the loop ends, and the delay is what it was, whether
    or not the acknowledgment carries a rate hint. *)
Lemma data_loop_ack (fuel : nat) (tries : Z) (buffer2 bb d : list byte) (w : world) :
  List.length bb = 16%nat ->
  has_prefix (lit "OKSS") bb = false ->
  net E (List.length (sent w)) = Reply d ->
  ack d ->
  data_loop E (S fuel) tries buffer2 bb w =
  Ret (tries + 1, upd 15 x00 d) (with_sent w [buffer2]).
Proof.
  intros Hl Hb Ha [Hd Hok].
  cbn [data_loop]. unfold bind at 1. unfold adjust_speed. rewrite Hb.
  unfold ret at 1. unfold bind at 1. unfold sendto. rewrite Ha.
  unfold bind at 1. unfold bind at 1. unfold recvfrom.
  rewrite pred_length_sent, Ha, stored_full by congruence.
  rewrite Hl, Hd. cbn [Nat.leb fst snd]. unfold ret.
  rewrite has_prefix_upd15, Hok by (simpl; lia). reflexivity.
Qed.

(** A turn that starts on a reply array with the rate hint of an earlier
    reply: the hint is applied first, then the turn goes on as above. *)
Lemma data_loop_hint_ack (fuel : nat) (tries delay : Z) (buffer2 bb d : list byte) (w : world) :
  List.length bb = 16%nat ->
  has_prefix (lit "OKSS") bb = true ->
  delay_of_rate (rate_hint bb) = Some delay ->
  net E (List.length (sent w)) = Reply d ->
  ack d ->
  data_loop E (S fuel) tries buffer2 bb w =
  Ret (tries + 1, upd 15 x00 d) (with_sent (with_delay w delay) [buffer2]).
Proof.
  intros Hl Hb Hdelay Ha [Hd Hok].
  cbn [data_loop]. unfold bind at 1. unfold adjust_speed. rewrite Hb, Hdelay.
  unfold bind at 1. unfold sendto. cbn [sent with_delay]. rewrite Ha.
  unfold bind at 1. unfold bind at 1. unfold recvfrom.
  rewrite pred_length_sent. cbn [sent with_delay].
  rewrite Ha, stored_full by congruence.
  rewrite Hl, Hd. cbn [Nat.leb fst snd]. unfold ret.
  rewrite has_prefix_upd15, Hok by (simpl; lia). reflexivity.
Qed.

(** A turn whose attempt stores nothing, on a reply array that still holds
    the plain acknowledgment of an earlier frame: the loop ends as if the
    frame had been acknowledged. *)
Lemma data_loop_stale (fuel : nat) (tries : Z) (buffer2 bb : list byte) (w : world) :
  has_prefix (lit "OK") bb = true ->
  has_prefix (lit "OKSS") bb = false ->
  net E (List.length (sent w)) = SendError \/ net E (List.length (sent w)) = RecvError ->
  data_loop E (S fuel) tries buffer2 bb w = Ret (tries + 1, bb) (with_sent w [buffer2]).
Proof.
  intros Hok Hb Ha.
  cbn [data_loop]. unfold bind at 1. unfold adjust_speed. rewrite Hb.
  unfold ret at 1. unfold bind at 1. unfold sendto.
  destruct Ha as [Ha|Ha]; rewrite Ha.
  - unfold bind, ret. rewrite Hok. reflexivity.
  - unfold bind, ret, recvfrom. rewrite pred_length_sent, Ha.
    cbn [fst snd]. rewrite Hok. reflexivity.
Qed.

(** One turn of the streaming loop, given how its exchange ends. *)
Lemma stream_turn (fuel : nat) (file_bytes buffer2 bb bb' : list byte)
    (offset tries : Z) (w w' : world) :
  offset < Z.of_nat (List.length file_bytes) ->
  data_loop E 8 0 (data_frame file_bytes offset buffer2) bb w = Ret (tries, bb') w' ->
  stream E (S fuel) file_bytes offset buffer2 bb w =
  if tries =? 8 then Ret false w'
  else stream E fuel file_bytes (u32 (offset + 4084)) (ZeroMemory 4096) bb' (with_nap w').
Proof.
  intros Hoff Hloop. cbn [stream].
  apply Z.ltb_lt in Hoff. rewrite Hoff.
  unfold bind at 1. rewrite Hloop. cbn [fst snd].
  destruct (tries =? 8); reflexivity.
Qed.

Lemma stream_end (fuel : nat) (file_bytes buffer2 bb : list byte) (offset : Z) (w : world) :
  Z.of_nat (List.length file_bytes) <= offset ->
  stream E (S fuel) file_bytes offset buffer2 bb w = Ret true w.
Proof.
  intros Hoff. cbn [stream]. apply Z.ltb_ge in Hoff. now rewrite Hoff.
Qed.

Lemma hint_defined_upd15 (d : list byte) :
  hint_defined d -> hint_defined (upd 15 x00 d).
Proof.
  unfold hint_defined.
  rewrite has_prefix_upd15, rate_hint_upd15 by (simpl; lia). auto.
Qed.

(** One turn of the streaming loop whose first attempt is acknowledged. *)
Lemma stream_acked (fuel : nat) (file_bytes buffer2 bb d : list byte)
    (offset : Z) (w : world) :
  offset < Z.of_nat (List.length file_bytes) ->
  List.length bb = 16%nat ->
  hint_defined bb ->
  net E (List.length (sent w)) = Reply d ->
  ack d ->
  exists w1,
    sent w1 = sent w ++ [data_frame file_bytes offset buffer2] /\
    stream E (S fuel) file_bytes offset buffer2 bb w =
    stream E fuel file_bytes (u32 (offset + 4084)) (ZeroMemory 4096) (upd 15 x00 d) w1.
Proof.
  intros Hoff Hl Hh Ha Hack.
  destruct (has_prefix (lit "OKSS") bb) eqn:Hb.
  - destruct (delay_of_rate (rate_hint bb)) as [delay|] eqn:Hd.
    2:{ now elim (Hh Hb). }
    eexists. split.
    2:{ rewrite (stream_turn fuel file_bytes buffer2 bb _ offset _ w _ Hoff
                   (data_loop_hint_ack 7 0 delay _ bb d w Hl Hb Hd Ha Hack)).
        reflexivity. }
    reflexivity.
  - eexists. split.
    2:{ rewrite (stream_turn fuel file_bytes buffer2 bb _ offset _ w _ Hoff
                   (data_loop_ack 7 0 _ bb d w Hl Hb Ha Hack)).
        reflexivity. }
    reflexivity.
Qed.

(** Whatever the peer does, one turn of the loop of [sendString] hands the
    frame to [sendto] once and then stops (with a result or at an undefined
    conversion) or, below the limit, goes on to the next turn. *)
Lemma sendString_loop_turn (fuel : nat) (tries : Z) (f bb : list byte) (w : world) :
  exists bb' w1,
    sent w1 = sent w ++ [f] /\
    (sendString_loop E (S fuel) tries f bb w = Undefined w1 \/
     sendString_loop E (S fuel) tries f bb w = Ret (tries + 1, bb') w1 \/
     (tries + 1 <> 8 /\
      sendString_loop E (S fuel) tries f bb w =
      sendString_loop E fuel (tries + 1) f bb' w1)).
Proof.
  assert (Hend : forall b w1,
             sent w1 = sent w ++ [f] ->
             (if negb (has_prefix (lit "OK") b) && negb (tries + 1 =? 8)
              then sendString_loop E fuel (tries + 1) f b
              else ret (tries + 1, b)) w1 = Ret (tries + 1, b) w1 \/
             (tries + 1 <> 8 /\
              (if negb (has_prefix (lit "OK") b) && negb (tries + 1 =? 8)
               then sendString_loop E fuel (tries + 1) f b
               else ret (tries + 1, b)) w1 =
              sendString_loop E fuel (tries + 1) f b w1)).
  { intros b w1 _. destruct (has_prefix (lit "OK") b); [now left|].
    destruct (tries + 1 =? 8) eqn:H8; [now left|]. right. split; [lia|reflexivity]. }
  cbn [sendString_loop]. unfold bind, sendto, recvfrom, adjust_speed, ret in *.
  cbv beta iota.
  destruct (net E (List.length (sent w))) as [| |d] eqn:Ha; cbv beta iota.
  - exists bb, (with_sent w [f]). split; [reflexivity|]. right. now apply Hend.
  - rewrite pred_length_sent, Ha. cbn [fst snd].
    exists bb, (with_sent w [f]). split; [reflexivity|]. right. now apply Hend.
  - rewrite pred_length_sent, Ha. cbn [fst snd].
    set (st := firstn (List.length bb) d ++ skipn (List.length d) bb).
    destruct (List.length d <=? List.length bb)%nat.
    + destruct (has_prefix (lit "OKSS") (upd 15 x00 st)).
      * destruct (delay_of_rate (rate_hint (upd 15 x00 st))) as [delay|].
        -- exists (upd 15 x00 st), (with_delay (with_sent w [f]) delay).
           split; [reflexivity|]. right. now apply Hend.
        -- exists bb, (with_sent w [f]). split; [reflexivity|]. now left.
      * exists (upd 15 x00 st), (with_sent w [f]). split; [reflexivity|]. right.
        now apply Hend.
    + exists st, (with_sent w [f]). split; [reflexivity|]. right.
      now apply Hend.
Qed.

(** The loop of [sendString] hands the same frame to [sendto] at least once
    and at most as many times as the limit leaves, and always ends. *)
Lemma sendString_loop_sends (fuel : nat) :
  forall (tries : Z) (f bb : list byte) (w : world),
    (1 <= fuel)%nat ->
    tries + Z.of_nat fuel = 8 ->
    exists n,
      (1 <= n <= fuel)%nat /\
      sent_of (sendString_loop E fuel tries f bb w) = Some (sent w ++ repeat f n).
Proof.
  induction fuel as [|fuel IH]; intros tries f bb w Hf Ht; [lia|].
  destruct (sendString_loop_turn fuel tries f bb w) as (bb' & w1 & Hs & [H|[H|[H8 H]]]).
  - exists 1%nat. split; [lia|]. rewrite H. simpl. now rewrite Hs.
  - exists 1%nat. split; [lia|]. rewrite H. simpl. now rewrite Hs.
  - destruct (IH (tries + 1) f bb' w1) as (n & Hn & Hsent); [lia|lia|].
    exists (S n). split; [lia|].
    rewrite H, Hsent, Hs, <- app_assoc. reflexivity.
Qed.

End Exchange.

(** ** The retry limit *)



(** C1.  When the first seven attempts bring no acknowledgment and the
    eighth is answered by an acknowledgment frame, [sendString] has handed the
    frame to [sendto] eight times and returns [false]: the acknowledged
    exchange is reported as a failure. *)
Theorem sendString_eighth_ack_fails (E : environment) (s f d : list byte) (w : world)
  (Hf : control_frame s = Some f)
  (Hjunk : has_prefix (lit "OK")
             (array_of 16 (back_buff_junk E (List.length (sent w)))) = false)
  (Hnet : forall i, (i < 7)%nat -> nonack (net E (List.length (sent w) + i)))
  (Hlast : net E (List.length (sent w) + 7) = Reply d)
  (Hack : plain_ack d) :
  sendString E s w = Ret false (with_sent w (repeat f 8)).
Proof.
  rewrite (sendString_unfold E s f w Hf).
  set (bb := array_of 16 (back_buff_junk E (List.length (sent w)))) in *.
  assert (Hl : List.length bb = 16%nat) by apply array_of_length.
  destruct (sendString_loop_nonacks E 7 1 0 f bb w Hl Hjunk) as (bb1 & Hl1 & Hb1 & Heq).
  { lia. }
  { exact Hnet. }
  change 8%nat with (7 + 1)%nat. rewrite Heq.
  destruct Hack as [Hack Hplain].
  rewrite (sendString_loop_ack E 0 (0 + Z.of_nat 7) f bb1 d _ Hl1); auto.
  - rewrite Hplain, with_sent_app. reflexivity.
  - rewrite length_sent_with_sent, repeat_length. exact Hlast.
Qed.

Lemma sendString_eighth_ack_fails_witness :
  exists f,
    control_frame (lit "START") = Some f /\
    sendString (peer (silent_but 7 OK_reply) x00) (lit "START") initial_world
    = Ret false (with_sent initial_world (repeat f 8)).
Proof.
  eexists. split.
  - vm_compute. reflexivity.
  - apply (sendString_eighth_ack_fails _ _ _ OK_reply).
    + vm_compute. reflexivity.
    + vm_compute. reflexivity.
    + intros i Hi. do 7 (destruct i as [|i]; [exact I|]). lia.
    + reflexivity.
    + vm_compute. auto.
Defined.

(** The streaming loop has the same limit: eight attempts without
    acknowledgment end the program through [exit(1)], and so do seven of them
    followed by an acknowledged eighth. *)
Lemma stream_eight_nonacks (E : environment) (fuel : nat)
    (file_bytes buffer2 bb : list byte) (offset : Z) (w : world) :
  offset < Z.of_nat (List.length file_bytes) ->
  List.length bb = 16%nat ->
  has_prefix (lit "OK") bb = false ->
  (forall i, (i < 8)%nat -> nonack (net E (List.length (sent w) + i))) ->
  stream E (S fuel) file_bytes offset buffer2 bb w =
  Ret false (with_sent w (repeat (data_frame file_bytes offset buffer2) 8)).
Proof.
  intros Hoff Hl Hb Hnet.
  set (f := data_frame file_bytes offset buffer2).
  destruct (data_loop_nonacks E 7 1 0 f bb w Hl Hb) as (bb1 & Hl1 & Hb1 & Heq);
    [lia|intros i Hi; apply Hnet; lia|].
  destruct (data_loop_nonack E 0 (0 + Z.of_nat 7) f bb1
              (with_sent w (repeat f 7)) Hl1 Hb1) as (bb2 & _ & _ & Heq2).
  { rewrite length_sent_with_sent, repeat_length. apply Hnet. lia. }
  rewrite (stream_turn E fuel file_bytes buffer2 bb bb2 offset 8 w
             (with_sent w (repeat f 8)) Hoff).
  - reflexivity.
  - fold f. change 8%nat with (7 + 1)%nat at 1. rewrite Heq, Heq2.
    unfold ret. rewrite with_sent_app. reflexivity.
Qed.

Lemma stream_eighth_ack_exits (E : environment) (fuel : nat)
    (file_bytes buffer2 bb d : list byte) (offset : Z) (w : world) :
  offset < Z.of_nat (List.length file_bytes) ->
  List.length bb = 16%nat ->
  has_prefix (lit "OK") bb = false ->
  (forall i, (i < 7)%nat -> nonack (net E (List.length (sent w) + i))) ->
  net E (List.length (sent w) + 7) = Reply d ->
  ack d ->
  stream E (S fuel) file_bytes offset buffer2 bb w =
  Ret false (with_sent w (repeat (data_frame file_bytes offset buffer2) 8)).
Proof.
  intros Hoff Hl Hb Hnet Hlast Hack.
  set (f := data_frame file_bytes offset buffer2).
  destruct (data_loop_nonacks E 7 1 0 f bb w Hl Hb) as (bb1 & Hl1 & Hb1 & Heq);
    [lia|exact Hnet|].
  rewrite (stream_turn E fuel file_bytes buffer2 bb (upd 15 x00 d) offset 8 w
             (with_sent w (repeat f 8)) Hoff).
  - reflexivity.
  - fold f. change 8%nat with (7 + 1)%nat at 1. rewrite Heq.
    rewrite (data_loop_ack E 0 (0 + Z.of_nat 7) f bb1 d _ Hl1 (not_OK_not_OKSS _ Hb1)).
    + rewrite with_sent_app. reflexivity.
    + rewrite length_sent_with_sent, repeat_length. exact Hlast.
    + exact Hack.
Qed.

(** ** The streaming phase *)

(** C6.  For a file of 10000 bytes whose three data frames are each
    acknowledged at the first attempt, the streaming loop ends normally after
    handing exactly three frames to [sendto]: tag, offset 0, 4084 and 8168
    most significant byte first, 4084 bytes of the file in the first two and the last
    1832 bytes followed by 2252 zero bytes in the third, each followed by
    its checksum. *)
Theorem stream_10000_bytes (E : environment) (fuel : nat)
    (file_bytes buffer2 bb d0 d1 d2 : list byte) (w : world)
  (Hsize : Z.of_nat (List.length file_bytes) = 10000)
  (Hbuf : List.length buffer2 = 4096%nat)
  (Hbb : List.length bb = 16%nat)
  (Hhint : hint_defined bb)
  (Hn0 : net E (List.length (sent w)) = Reply d0)
  (Hn1 : net E (List.length (sent w) + 1) = Reply d1)
  (Hn2 : net E (List.length (sent w) + 2) = Reply d2)
  (Ha0 : ack d0 /\ hint_defined d0)
  (Ha1 : ack d1 /\ hint_defined d1)
  (Ha2 : ack d2)
  (Hfuel : (4 <= fuel)%nat) :
  (exists w',
     stream E fuel file_bytes 0 buffer2 bb w = Ret true w' /\
     sent w' = sent w ++
       [framed (lit "DATA" ++ intToBytes 0 ++ firstn 4084 file_bytes);
        framed (lit "DATA" ++ intToBytes 4084
                ++ firstn 4084 (skipn (Z.to_nat 4084) file_bytes));
        framed (lit "DATA" ++ intToBytes 8168
                ++ skipn (Z.to_nat 8168) file_bytes ++ repeat x00 2252)]) /\
  map big_endian [intToBytes 0; intToBytes 4084; intToBytes 8168] = [0; 4084; 8168] /\
  List.length (firstn 4084 file_bytes) = 4084%nat /\
  List.length (firstn 4084 (skipn (Z.to_nat 4084) file_bytes)) = 4084%nat /\
  List.length (skipn (Z.to_nat 8168) file_bytes) = 1832%nat.
Proof.
  assert (Hlen3 : List.length (skipn (Z.to_nat 8168) file_bytes) = 1832%nat).
  { rewrite length_skipn. lia. }
  split; [|split; [|split; [|split]]].
  - do 4 (destruct fuel as [|fuel]; [lia|]).
    destruct Ha0 as [Ha0 Hh0]. destruct Ha1 as [Ha1 Hh1].
    destruct (stream_acked E (S (S (S fuel))) file_bytes buffer2 bb d0 0 w)
      as (w1 & Hs1 & Heq1); auto; [lia|].
    assert (Hl1 : List.length (sent w1) = (List.length (sent w) + 1)%nat).
    { rewrite Hs1, length_app. reflexivity. }
    destruct (stream_acked E (S (S fuel)) file_bytes (ZeroMemory 4096)
                (upd 15 x00 d0) d1 (u32 (0 + 4084)) w1)
      as (w2 & Hs2 & Heq2).
    { change (u32 (0 + 4084)) with 4084. lia. }
    { rewrite upd_length. apply Ha0. }
    { now apply hint_defined_upd15. }
    { now rewrite Hl1. }
    { exact Ha1. }
    assert (Hl2 : List.length (sent w2) = (List.length (sent w) + 2)%nat).
    { rewrite Hs2, length_app, Hl1. simpl. lia. }
    destruct (stream_acked E (S fuel) file_bytes (ZeroMemory 4096)
                (upd 15 x00 d1) d2 (u32 (u32 (0 + 4084) + 4084)) w2)
      as (w3 & Hs3 & Heq3).
    { change (u32 (u32 (0 + 4084) + 4084)) with 8168. lia. }
    { rewrite upd_length. apply Ha1. }
    { now apply hint_defined_upd15. }
    { now rewrite Hl2. }
    { exact Ha2. }
    exists w3. split.
    + rewrite Heq1, Heq2, Heq3. apply stream_end.
      change (u32 (u32 (u32 (0 + 4084) + 4084) + 4084)) with 12252. lia.
    + rewrite Hs3, Hs2, Hs1, <- !app_assoc. cbn [app]. f_equal.
      change (u32 (u32 (0 + 4084) + 4084)) with 8168.
      change (u32 (0 + 4084)) with 4084.
      rewrite (data_frame_spec file_bytes buffer2 0 4084) by (auto; lia).
      rewrite (data_frame_spec file_bytes (ZeroMemory 4096) 4084 4084)
        by (try apply array_of_length; lia).
      rewrite (data_frame_spec file_bytes (ZeroMemory 4096) 8168 1832)
        by (try apply array_of_length; lia).
      cbv zeta. rewrite Nat.sub_diag, !firstn_O, !app_nil_r.
      change (Z.to_nat 0) with 0%nat. rewrite skipn_O.
      rewrite ZeroMemory_repeat, skipn_repeat_le, firstn_repeat_le by lia.
      rewrite (@firstn_all2 _ 1832 (skipn (Z.to_nat 8168) file_bytes))
        by (rewrite Hlen3; apply Nat.le_refl).
      replace (4084 - 1832)%nat with 2252%nat by lia.
      reflexivity.
  - vm_compute. reflexivity.
  - rewrite length_firstn. lia.
  - rewrite length_firstn, length_skipn. lia.
  - exact Hlen3.
Qed.

Lemma stream_10000_bytes_witness :
  (exists w',
     stream (peer all_OK xcc) 4 (letters 10000) 0
       (array_of 4096 (fun _ => xcc)) (array_of 16 (fun _ => xcc)) initial_world
     = Ret true w' /\
     sent w' = sent initial_world ++
       [framed (lit "DATA" ++ intToBytes 0 ++ firstn 4084 (letters 10000));
        framed (lit "DATA" ++ intToBytes 4084
                ++ firstn 4084 (skipn (Z.to_nat 4084) (letters 10000)));
        framed (lit "DATA" ++ intToBytes 8168
                ++ skipn (Z.to_nat 8168) (letters 10000) ++ repeat x00 2252)]) /\
  map big_endian [intToBytes 0; intToBytes 4084; intToBytes 8168] = [0; 4084; 8168] /\
  List.length (firstn 4084 (letters 10000)) = 4084%nat /\
  List.length (firstn 4084 (skipn (Z.to_nat 4084) (letters 10000))) = 4084%nat /\
  List.length (skipn (Z.to_nat 8168) (letters 10000)) = 1832%nat.
Proof.
  apply (stream_10000_bytes (peer all_OK xcc) 4 (letters 10000) _ _
           OK_reply OK_reply OK_reply).
  - vm_compute. reflexivity.
  - vm_compute. reflexivity.
  - vm_compute. reflexivity.
  - intros H. vm_compute in H. discriminate H.
  - reflexivity.
  - reflexivity.
  - reflexivity.
  - split; [split; vm_compute; reflexivity|]. intros H. vm_compute in H. discriminate H.
  - split; [split; vm_compute; reflexivity|]. intros H. vm_compute in H. discriminate H.
  - split; vm_compute; reflexivity.
  - lia.
Defined.

(** C9.  In the streaming loop a rate hint is not applied when the
    acknowledgment that carries it arrives.  When a data frame sent on a
    reply array without hint is acknowledged by [OKSS] and a rate, whatever
    the rate, the loop goes on to the next frame in a world where the delay
    is the one from before the exchange, and that delay is the one slept. *)
Theorem stream_sleeps_old_delay (E : environment) (fuel : nat)
    (file_bytes buffer2 bb d : list byte) (offset bps : Z) (w : world)
  (Hoff : offset < Z.of_nat (List.length file_bytes))
  (Hbb : List.length bb = 16%nat)
  (Hnohint : has_prefix (lit "OKSS") bb = false)
  (Hnet : net E (List.length (sent w)) = Reply d)
  (Hack : rate_ack bps d) :
  let w' := with_nap (with_sent w [data_frame file_bytes offset buffer2]) in
  stream E (S fuel) file_bytes offset buffer2 bb w =
  stream E fuel file_bytes (u32 (offset + 4084)) (ZeroMemory 4096) (upd 15 x00 d) w' /\
  sleep_time w' = sleep_time w /\
  naps w' = naps w ++ [sleep_time w].
Proof.
  destruct Hack as (Hd & Hss & _).
  split; [|split; reflexivity].
  rewrite (stream_turn E fuel file_bytes buffer2 bb _ offset _ w _ Hoff
             (data_loop_ack E 7 0 _ bb d w Hbb Hnohint Hnet
                (conj Hd (OKSS_is_OK d Hss)))).
  reflexivity.
Qed.

Lemma stream_sleeps_old_delay_witness :
  stream (peer (fun _ => Reply (OKSS_reply 1)) x00) 2 (lit "hello") 0
    (ZeroMemory 4096) (ZeroMemory 16) initial_world =
  stream (peer (fun _ => Reply (OKSS_reply 1)) x00) 1 (lit "hello") (u32 (0 + 4084))
    (ZeroMemory 4096) (upd 15 x00 (OKSS_reply 1))
    (with_nap (with_sent initial_world
                 [data_frame (lit "hello") 0 (ZeroMemory 4096)])) /\
  sleep_time (with_nap (with_sent initial_world
                 [data_frame (lit "hello") 0 (ZeroMemory 4096)]))
  = sleep_time initial_world /\
  naps (with_nap (with_sent initial_world
                 [data_frame (lit "hello") 0 (ZeroMemory 4096)]))
  = naps initial_world ++ [sleep_time initial_world].
Proof.
  apply (stream_sleeps_old_delay (peer (fun _ => Reply (OKSS_reply 1)) x00) 1
           (lit "hello") (ZeroMemory 4096) (ZeroMemory 16) (OKSS_reply 1) 0 1).
  - vm_compute. reflexivity.
  - reflexivity.
  - reflexivity.
  - reflexivity.
  - repeat split; vm_compute; reflexivity.
Defined.

(** The whole transfer of "hello" when the data frame is acknowledged with
    [OKSS] and the rate 1: the one sleep lasts 0 ms, and the delay is still 0
    when the program ends. *)
Example hello_rate_hint_never_applied :
  exists w',
    _tmain (peer (all_OK_but 4 (Reply (OKSS_reply 1))) x00) 2 (lit "hello") out_txt
      initial_world = Ret Completed w' /\
    naps w' = [0] /\ sleep_time w' = 0.
Proof.
  eexists. split; [vm_compute; reflexivity|]. split; reflexivity.
Qed.

(** The hint is applied when the exchange of the next data frame starts:
    one sleep too late. *)
Lemma stream_applies_hint_on_next_frame (E : environment) (fuel : nat)
    (file_bytes buffer2 bb d : list byte) (offset delay : Z) (w : world) :
  offset < Z.of_nat (List.length file_bytes) ->
  List.length bb = 16%nat ->
  has_prefix (lit "OKSS") bb = true ->
  delay_of_rate (rate_hint bb) = Some delay ->
  net E (List.length (sent w)) = Reply d ->
  ack d ->
  stream E (S fuel) file_bytes offset buffer2 bb w =
  stream E fuel file_bytes (u32 (offset + 4084)) (ZeroMemory 4096) (upd 15 x00 d)
    (with_nap (with_sent (with_delay w delay) [data_frame file_bytes offset buffer2])).
Proof.
  intros Hoff Hbb Hss Hdelay Hnet Hack.
  rewrite (stream_turn E fuel file_bytes buffer2 bb _ offset _ w _ Hoff
             (data_loop_hint_ack E 7 0 delay _ bb d w Hbb Hss Hdelay Hnet Hack)).
  reflexivity.
Qed.

(** ** Classification of a missing reply *)

(** C3.  A file of more than 4084 bytes, whose first data frame is
    acknowledged by a plain [OK] and whose second data frame meets a failing
    [recvfrom] (or a failing [sendto]) at its first attempt.  The second frame
    is handed to [sendto] once, is not repeated, and the loop sleeps and goes
    on at offset 8168 as after an acknowledgment: the reply array still holds
    the [OK] of the first frame, and the attempt without reply is classified
    by it. *)
Theorem missing_reply_counts_as_ack (E : environment) (fuel : nat)
    (file_bytes buffer2 bb d : list byte) (w : world)
  (Hsize : 4084 < Z.of_nat (List.length file_bytes))
  (Hbb : List.length bb = 16%nat)
  (Hnohint : has_prefix (lit "OKSS") bb = false)
  (Hfirst : net E (List.length (sent w)) = Reply d)
  (Hack : plain_ack d)
  (Hsecond : net E (List.length (sent w) + 1) = RecvError \/
             net E (List.length (sent w) + 1) = SendError) :
  stream E (S (S fuel)) file_bytes 0 buffer2 bb w =
  stream E fuel file_bytes 8168 (ZeroMemory 4096) (upd 15 x00 d)
    (with_nap (with_sent
       (with_nap (with_sent w [data_frame file_bytes 0 buffer2]))
       [data_frame file_bytes 4084 (ZeroMemory 4096)])).
Proof.
  destruct Hack as [[Hd Hok] Hplain].
  rewrite (stream_turn E (S fuel) file_bytes buffer2 bb _ 0 _ w _ ltac:(lia)
             (data_loop_ack E 7 0 _ bb d w Hbb Hnohint Hfirst (conj Hd Hok))).
  change (u32 (0 + 4084)) with 4084.
  change (0 + 1 =? 8) with false. cbv iota.
  set (w1 := with_nap (with_sent w [data_frame file_bytes 0 buffer2])).
  assert (Hnet : net E (List.length (sent w1)) = RecvError \/
                 net E (List.length (sent w1)) = SendError).
  { unfold w1. cbn [sent with_nap]. rewrite length_sent_with_sent.
    cbn [List.length]. destruct Hsecond as [H|H]; rewrite H; auto. }
  rewrite (stream_turn E fuel file_bytes (ZeroMemory 4096) (upd 15 x00 d) _ 4084 _ w1 _
             Hsize
             (data_loop_stale E 7 0 _ (upd 15 x00 d) w1
                ltac:(rewrite has_prefix_upd15 by (simpl; lia); exact Hok)
                ltac:(rewrite has_prefix_upd15 by (simpl; lia); exact Hplain)
                ltac:(destruct Hnet; auto))).
  reflexivity.
Qed.

Lemma missing_reply_counts_as_ack_witness :
  stream (peer (all_OK_but 1 RecvError) x00) 3 (letters 5000) 0
    (ZeroMemory 4096) (ZeroMemory 16) initial_world =
  stream (peer (all_OK_but 1 RecvError) x00) 1 (letters 5000) 8168
    (ZeroMemory 4096) (upd 15 x00 OK_reply)
    (with_nap (with_sent
       (with_nap (with_sent initial_world
                    [data_frame (letters 5000) 0 (ZeroMemory 4096)]))
       [data_frame (letters 5000) 4084 (ZeroMemory 4096)])).
Proof.
  apply (missing_reply_counts_as_ack (peer (all_OK_but 1 RecvError) x00) 1
           (letters 5000) (ZeroMemory 4096) (ZeroMemory 16) OK_reply initial_world).
  - vm_compute. reflexivity.
  - reflexivity.
  - reflexivity.
  - reflexivity.
  - repeat split; vm_compute; reflexivity.
  - left. reflexivity.
Defined.

(** ** The frame checksum *)

Lemma uchar_range (c : byte) : 0 <= uchar c < 256.
Proof.
  unfold uchar. pose proof (Byte.to_N_bounded c). lia.
Qed.

(** On a byte below 0x80 the step of [crc32c] is the step of CRC-32C. *)
Lemma crc_step_7bit (crc : Z) (c : byte) :
  uchar c < 128 -> crc_step crc c = crc32c_spec_step crc c.
Proof.
  intros H. unfold crc_step, crc32c_spec_step, schar, u32.
  pose proof (uchar_range c) as R.
  destruct (uchar c <? 128) eqn:Hlt; [|lia].
  rewrite Z.mod_small by lia. reflexivity.
Qed.

(** On a buffer of bytes below 0x80, [crc32c] computes CRC-32C. *)
Lemma crc32c_7bit (buf : list byte) :
  Forall (fun c => uchar c < 128) buf ->
  crc32c 0 buf (List.length buf) = crc32c_spec buf.
Proof.
  intros H. unfold crc32c, crc32c_spec. f_equal.
  generalize (not32 0) as crc.
  induction H as [|c buf Hc _ IH]; intros crc; simpl; [reflexivity|].
  rewrite crc_step_7bit by assumption. apply IH.
Qed.

(** Every array of 4096 bytes leaves [put_crc] as a frame of 4096 bytes whose
    last four bytes are [crc32c] of the first 4092, most significant first. *)
Lemma put_crc_frame (buffer : list byte) :
  List.length buffer = 4096%nat ->
  List.length (put_crc buffer) = 4096%nat /\
  body (put_crc buffer) = body buffer /\
  trailer (put_crc buffer) = intToBytes (crc32c 0 (body buffer) 4092).
Proof.
  intros H. split; [now rewrite put_crc_length|].
  rewrite put_crc_spec by assumption. unfold body, trailer.
  assert (Hb : List.length (firstn 4092 buffer) = 4092%nat).
  { rewrite length_firstn, H. reflexivity. }
  split.
  - rewrite <- Hb at 1. rewrite firstn_app, firstn_all, Nat.sub_diag, firstn_O.
    apply app_nil_r.
  - rewrite <- Hb at 1. rewrite skipn_app, skipn_all, Nat.sub_diag, skipn_O.
    reflexivity.
Qed.

(** The frames of both kinds end in the checksum that [crc32c] computes. *)
Lemma control_frame_checksum (s f : list byte) :
  control_frame s = Some f ->
  List.length f = 4096%nat /\
  trailer f = intToBytes (crc32c 0 (body f) 4092).
Proof.
  unfold control_frame, sprintf, store_string.
  destruct (format (c_str s)) as [out|]; [|discriminate].
  destruct (List.length out + 1 <=? List.length (ZeroMemory 4096))%nat eqn:Hle;
    [|discriminate].
  intros H. injection H as <-.
  apply Nat.leb_le in Hle. rewrite ZeroMemory_length in Hle.
  destruct (put_crc_frame (out ++ [x00] ++ skipn (List.length out + 1) (ZeroMemory 4096)))
    as (Hl & Hb & Ht).
  { rewrite !length_app, length_skipn, ZeroMemory_length. cbn [List.length]. lia. }
  split; [exact Hl|].
  etransitivity; [exact Ht|].
  apply (f_equal (fun b => intToBytes (crc32c 0 b 4092))). symmetry. exact Hb.
Qed.

Lemma data_frame_checksum (file_bytes buffer2 : list byte) (offset : Z) :
  List.length buffer2 = 4096%nat ->
  List.length (data_frame file_bytes offset buffer2) = 4096%nat /\
  trailer (data_frame file_bytes offset buffer2)
  = intToBytes (crc32c 0 (body (data_frame file_bytes offset buffer2)) 4092).
Proof.
  intros H. unfold data_frame.
  match goal with |- context [put_crc ?b] => set (buf := b) end.
  assert (Hbuf : List.length buf = 4096%nat).
  { unfold buf.
    rewrite (for_loop_upd_length (fun i => (i + 8)%nat)
               (fun i => at_ file_bytes (i + Z.to_nat offset))).
    rewrite (for_loop_upd_length (fun i => (i + 4)%nat)
               (fun i => at_ (intToBytes offset) i)).
    now rewrite !upd_length. }
  destruct (put_crc_frame buf Hbuf) as (Hl & Hb & Ht).
  split; [exact Hl|]. now rewrite Ht, Hb.
Qed.

(** C4.  A file of one byte, 0xE9, every attempt acknowledged.  The
    data frame (the fifth frame sent) has 4096 bytes, the tag, the offset 0,
    the byte and NUL bytes; its last four bytes are what [crc32c] returns,
    and they are not the CRC-32C of its first 4092 bytes: the byte 0xE9
    enters the checksum sign-extended. *)
Theorem data_frame_checksum_is_not_crc32c :
  exists w' f,
    _tmain (peer all_OK x00) 2 [xe9] out_txt initial_world = Ret Completed w' /\
    nth_error (sent w') 4 = Some f /\
    List.length f = 4096%nat /\
    body f = padded (lit "DATA" ++ [x00; x00; x00; x00] ++ [xe9]) /\
    trailer f = intToBytes (crc32c 0 (body f) 4092) /\
    trailer f <> intToBytes (crc32c_spec (body f)).
Proof.
  eexists. eexists.
  split; [vm_compute; reflexivity|].
  split; [reflexivity|].
  split; [vm_compute; reflexivity|].
  split; [vm_compute; reflexivity|].
  split; [vm_compute; reflexivity|].
  vm_compute. discriminate.
Qed.

(** The same happens to text files: the second data frame of a file of 5000
    letters has the offset 4084, whose byte 0xF4 is sign-extended. *)
Example second_data_frame_checksum_is_not_crc32c :
  let f := data_frame (letters 5000) 4084 (ZeroMemory 4096) in
  firstn 8 f = lit "DATA" ++ [x00; x00; x0f; xf4] /\
  forallb (fun c => uchar c <? 128) (skipn 8 (body f)) = true /\
  trailer f <> intToBytes (crc32c_spec (body f)).
Proof.
  split; [vm_compute; reflexivity|].
  split; [vm_compute; reflexivity|].
  vm_compute. discriminate.
Qed.

(** ** The digest *)

(** A file without carriage return and without Ctrl-Z is read the same in
    text mode and in binary mode. *)
Lemma text_mode_read_plain (file : list byte) :
  ~ In x0d file -> ~ In x1a file -> text_mode_read file = ReadAllBytes file.
Proof.
  unfold ReadAllBytes.
  induction file as [|c rest IH]; intros Hcr Hz; [reflexivity|].
  cbn [text_mode_read].
  destruct (Byte.eqb c x1a) eqn:H1.
  { apply Byte.byte_dec_bl in H1. subst. elim Hz. now left. }
  destruct (Byte.eqb c x0d) eqn:H2.
  { apply Byte.byte_dec_bl in H2. subst. elim Hcr. now left. }
  f_equal. apply IH; intros H; [apply Hcr|apply Hz]; now right.
Qed.

(** C5.  A file of four bytes: a letter, carriage return, line feed, a
    letter.  The stream that is digested delivers three bytes and
    [ReadAllBytes] four; the HASH frame carries the digest of the three, the
    data frame carries the four, and the two digests differ. *)
Theorem digest_is_not_over_the_payload :
  text_mode_read [x61; x0d; x0a; x62] = [x61; x0a; x62] /\
  ReadAllBytes [x61; x0d; x0a; x62] = [x61; x0d; x0a; x62] /\
  exists w' hash_frame data,
    _tmain (peer all_OK x00) 2 [x61; x0d; x0a; x62] out_txt initial_world
    = Ret Completed w' /\
    nth_error (sent w') 2 = Some hash_frame /\
    nth_error (sent w') 4 = Some data /\
    body hash_frame = padded (lit "HASH=" ++ md5 [x61; x0a; x62]) /\
    body data = padded (lit "DATA" ++ intToBytes 0 ++ [x61; x0d; x0a; x62]) /\
    md5 [x61; x0a; x62] <> md5 [x61; x0d; x0a; x62].
Proof.
  split; [reflexivity|]. split; [reflexivity|].
  eexists. eexists. eexists.
  split; [vm_compute; reflexivity|].
  split; [reflexivity|].
  split; [reflexivity|].
  split; [vm_compute; reflexivity|].
  split; [vm_compute; reflexivity|].
  vm_compute. discriminate.
Qed.

(** ** The transfer of "hello" *)

(** The data frame of a file of at most 4084 bytes: behind the bytes of the
    file, the body holds what [buffer2] held there before. *)
Lemma short_file_data_frame (file_bytes buffer2 : list byte) :
  List.length buffer2 = 4096%nat ->
  (0 < List.length file_bytes <= 4084)%nat ->
  data_frame file_bytes 0 buffer2 =
  framed (lit "DATA" ++ intToBytes 0 ++ file_bytes
          ++ firstn (4084 - List.length file_bytes)
               (skipn (8 + List.length file_bytes) buffer2)).
Proof.
  intros Hbuf Hlen.
  rewrite (data_frame_spec file_bytes buffer2 0 (List.length file_bytes)) by lia.
  cbv zeta. change (Z.to_nat 0) with 0%nat. rewrite skipn_O, firstn_all.
  reflexivity.
Qed.

(** C7.  The file "hello", every attempt acknowledged, and [buffer2]
    holding the byte 0xCC everywhere when it is declared.  Six frames are
    sent; the bodies of the control frames are the padded commands, and the
    body of the data frame is the tag, the offset 0, the five letters and
    4079 bytes 0xCC, not 4079 zero bytes: [buffer2] is cleared after each
    data frame, never before the first. *)
Theorem hello_data_frame_is_not_zero_padded :
  exists w',
    _tmain (peer all_OK xcc) 2 (lit "hello") out_txt initial_world = Ret Completed w' /\
    map body (sent w') =
      [padded (lit "NAME=D:\out.txt");
       padded (lit "SIZE=5");
       padded (lit "HASH=5d41402abc4b2a76b9719d911017c592");
       padded (lit "START");
       lit "DATA" ++ [x00; x00; x00; x00] ++ lit "hello" ++ repeat xcc 4079;
       padded (lit "STOP")] /\
    lit "DATA" ++ [x00; x00; x00; x00] ++ lit "hello" ++ repeat xcc 4079
    <> lit "DATA" ++ [x00; x00; x00; x00] ++ lit "hello" ++ repeat x00 4079.
Proof.
  eexists. split; [vm_compute; reflexivity|].
  split; [vm_compute; reflexivity|].
  vm_compute. discriminate.
Qed.

(** When [buffer2] happens to hold zero bytes, the frames are the expected
    ones. *)
Example hello_frames_on_zeroed_memory :
  exists w',
    _tmain (peer all_OK x00) 2 (lit "hello") out_txt initial_world = Ret Completed w' /\
    map body (sent w') =
      [padded (lit "NAME=D:\out.txt");
       padded (lit "SIZE=5");
       padded (lit "HASH=" ++ md5 (lit "hello"));
       padded (lit "START");
       lit "DATA" ++ [x00; x00; x00; x00] ++ lit "hello" ++ repeat x00 4079;
       padded (lit "STOP")].
Proof.
  eexists. split; vm_compute; reflexivity.
Qed.

(** ** The rate hint *)

Lemma rate_hint_big_endian (d : list byte) :
  (8 <= List.length d)%nat ->
  rate_hint d = big_endian (firstn 4 (skipn 4 d)).
Proof.
  intros H.
  do 8 (destruct d as [|? d]; [simpl in H; lia|]).
  unfold rate_hint, big_endian, at_, u32.
  cbn [for_loop Nat.add nth skipn firstn fold_left].
  pose proof (uchar_range b3). pose proof (uchar_range b4).
  pose proof (uchar_range b5). pose proof (uchar_range b6).
  rewrite !Z.shiftl_mul_pow2 by lia.
  change (2 ^ 8) with 256. change (2 ^ 32) with 4294967296.
  rewrite (Z.mod_small (0 * 256 + uchar b3)) by lia.
  rewrite (Z.mod_small ((0 * 256 + uchar b3) * 256 + uchar b4)) by lia.
  rewrite (Z.mod_small (((0 * 256 + uchar b3) * 256 + uchar b4) * 256 + uchar b5)) by lia.
  rewrite Z.mod_small by lia.
  lia.
Qed.

(** On the rates 1 to 2048 the single-precision value is the exactly
    rounded one. *)
Lemma delay_of_rate_exact (bps : Z) :
  1 <= bps <= 2048 -> delay_of_rate bps = Some (delay_spec bps).
Proof.
  intros H.
  assert (Hall : forallb (fun n => match delay_of_rate (Z.of_nat n) with
                                   | Some d => d =? delay_spec (Z.of_nat n)
                                   | None => false
                                   end) (seq 1 2048) = true).
  { vm_compute. reflexivity. }
  rewrite forallb_forall in Hall.
  specialize (Hall (Z.to_nat bps)).
  rewrite Z2Nat.id in Hall by lia.
  destruct (delay_of_rate bps) as [d|].
  - f_equal. apply Z.eqb_eq. apply Hall. apply in_seq. lia.
  - discriminate Hall. apply in_seq. lia.
Qed.

Example delay_of_rate_values :
  map delay_of_rate [1; 3; 65536; 4096000; 8192000; 8192001; 2 ^ 32 - 1; 0]
  = [Some 4096000; Some 1365333; Some 63; Some 1; Some 1; Some 0; Some 0; None].
Proof. vm_compute. reflexivity. Qed.

(** C8, as the program has it.  When an attempt of [sendString], the
    first or one that follows attempts without acknowledgment, is answered by
    [OKSS] and the rate [bps], and the single-precision value of
    round(4096 / bps * 1000) fits an [unsigned int], the delay is set to that
    value when [sendString] returns; for [OKSS] and the rate 1 the value is
    4096000. *)
Theorem sendString_applies_rate_hint (E : environment) (s f d : list byte)
    (bps delay : Z) (k : nat) (w : world)
  (Hf : control_frame s = Some f)
  (Hk : (k <= 7)%nat)
  (Hjunk : (0 < k)%nat ->
           has_prefix (lit "OK")
             (array_of 16 (back_buff_junk E (List.length (sent w)))) = false)
  (Hnet : forall i, (i < k)%nat -> nonack (net E (List.length (sent w) + i)))
  (Hreply : net E (List.length (sent w) + k) = Reply d)
  (Hack : rate_ack bps d)
  (Hdelay : delay_of_rate bps = Some delay) :
  sendString E s w =
    Ret (Z.of_nat k + 1 <? 8) (with_delay (with_sent w (repeat f (k + 1))) delay) /\
  rate_ack 1 (OKSS_reply 1) /\ delay_of_rate 1 = Some 4096000.
Proof.
  split; [|split; [repeat split|]; vm_compute; reflexivity].
  destruct Hack as (Hd & Hss & Hbps).
  rewrite <- rate_hint_big_endian in Hbps by lia.
  rewrite (sendString_unfold E s f w Hf).
  set (bb := array_of 16 (back_buff_junk E (List.length (sent w)))) in *.
  assert (Hl : List.length bb = 16%nat) by apply array_of_length.
  destruct k as [|k].
  - rewrite Nat.add_0_r in Hreply.
    rewrite (sendString_loop_ack E 7 0 f bb d w Hl Hreply (conj Hd (OKSS_is_OK d Hss))).
    rewrite Hss, Hbps, Hdelay. reflexivity.
  - destruct (sendString_loop_nonacks E (S k) (S (7 - S k)) 0 f bb w Hl)
      as (bb1 & Hl1 & Hb1 & Heq); [apply Hjunk; lia|lia|exact Hnet|].
    replace 8%nat with (S k + S (7 - S k))%nat by lia.
    rewrite Heq.
    rewrite (sendString_loop_ack E (7 - S k) (0 + Z.of_nat (S k)) f bb1 d _ Hl1).
    + rewrite Hss, Hbps, Hdelay, with_sent_app, Z.add_0_l.
      change [f] with (repeat f 1). rewrite <- repeat_app. reflexivity.
    + rewrite length_sent_with_sent, repeat_length. exact Hreply.
    + exact (conj Hd (OKSS_is_OK d Hss)).
Qed.

Lemma sendString_applies_rate_hint_witness :
  exists f,
    control_frame (lit "START") = Some f /\
    (sendString (peer (silent_but 2 (OKSS_reply 1)) x00) (lit "START") initial_world
     = Ret (Z.of_nat 2 + 1 <? 8)
           (with_delay (with_sent initial_world (repeat f (2 + 1))) 4096000) /\
     rate_ack 1 (OKSS_reply 1) /\ delay_of_rate 1 = Some 4096000).
Proof.
  eexists. split.
  - vm_compute. reflexivity.
  - apply (sendString_applies_rate_hint _ _ _ (OKSS_reply 1) 1).
    + vm_compute. reflexivity.
    + lia.
    + intros _. vm_compute. reflexivity.
    + intros i Hi. do 2 (destruct i as [|i]; [exact I|]). lia.
    + reflexivity.
    + repeat split; vm_compute; reflexivity.
    + vm_compute. reflexivity.
Defined.

(** The two places where C8 fails as it is worded.  A reply
    [OKSS] with the rate 0 classifies as success with rate, and the exchange
    reaches a conversion without defined result instead of setting a delay.
    And in the streaming loop the reply [OKSS] with the rate 1 to the only
    data frame of "hello" leaves the delay at 0 to the end of the program. *)
Lemma rate_hint_not_always_applied :
  (rate_ack 0 (OKSS_reply 0) /\
   exists w1,
     sendString (peer (fun _ => Reply (OKSS_reply 0)) x00) (lit "START") initial_world
     = Undefined w1) /\
  (rate_ack 1 (OKSS_reply 1) /\
   exists w',
     _tmain (peer (all_OK_but 4 (Reply (OKSS_reply 1))) x00) 2 (lit "hello") out_txt
       initial_world = Ret Completed w' /\
     sleep_time w' = 0).
Proof.
  split; split.
  - repeat split; vm_compute; reflexivity.
  - eexists. vm_compute. reflexivity.
  - repeat split; vm_compute; reflexivity.
  - eexists. split; [vm_compute; reflexivity|]. reflexivity.
Qed.

(** ** Commands as format strings *)

Lemma c_str_plain (s : list byte) : ~ In x00 s -> c_str s = s.
Proof.
  induction s as [|c s IH]; intros H; [reflexivity|].
  cbn [c_str]. destruct (Byte.eqb c x00) eqn:Hc.
  - apply Byte.byte_dec_bl in Hc. subst. elim H. now left.
  - f_equal. apply IH. intros Hin. apply H. now right.
Qed.

Lemma format_plain (s : list byte) : ~ In percent s -> format s = Some s.
Proof.
  induction s as [|c s IH]; intros H; [reflexivity|].
  cbn [format]. destruct (Byte.eqb c percent) eqn:Hc.
  - apply Byte.byte_dec_bl in Hc. subst. elim H. now left.
  - rewrite IH; [reflexivity|]. intros Hin. apply H. now right.
Qed.

Lemma c_str_no_nul (m : list byte) : ~ In x00 (c_str m).
Proof.
  induction m as [|c m IH]; [intros []|].
  cbn [c_str]. destruct (Byte.eqb c x00) eqn:Hc; [intros []|].
  intros [H|H]; [|now apply IH].
  subst. discriminate Hc.
Qed.

Lemma c_str_idempotent (m : list byte) : c_str (c_str m) = c_str m.
Proof. apply c_str_plain, c_str_no_nul. Qed.

(** The frame of a command without [%], shorter than a body. *)
Lemma control_frame_plain (s : list byte) :
  (List.length (c_str s) < 4092)%nat -> ~ In percent (c_str s) ->
  control_frame s = Some (framed (padded (c_str s))).
Proof.
  intros Hlen Hp.
  unfold control_frame, sprintf, store_string.
  rewrite format_plain by assumption.
  set (cmd := c_str s) in *.
  rewrite ZeroMemory_repeat, repeat_length.
  destruct (List.length cmd + 1 <=? 4096)%nat eqn:Hle.
  2:{ apply Nat.leb_gt in Hle. lia. }
  rewrite skipn_repeat_le. f_equal.
  assert (Hcat : [x00] ++ repeat x00 (4096 - (List.length cmd + 1))
                 = repeat x00 (4096 - List.length cmd)).
  { replace (4096 - List.length cmd)%nat with (S (4096 - (List.length cmd + 1))) by lia.
    reflexivity. }
  rewrite Hcat.
  rewrite put_crc_spec by (rewrite length_app, repeat_length; lia).
  assert (Hbody : firstn 4092 (cmd ++ repeat x00 (4096 - List.length cmd)) = padded cmd).
  { unfold padded.
    replace 4092%nat with (List.length cmd + (4092 - List.length cmd))%nat at 1 by lia.
    rewrite firstn_app_2, firstn_repeat_le by lia. reflexivity. }
  rewrite Hbody. reflexivity.
Qed.

Lemma padded_length (s : list byte) :
  (List.length s <= 4092)%nat -> List.length (padded s) = 4092%nat.
Proof.
  intros H. unfold padded. rewrite length_app, repeat_length. lia.
Qed.

Lemma body_framed (b : list byte) :
  List.length b = 4092%nat ->
  List.length (framed b) = 4096%nat /\ body (framed b) = b.
Proof.
  intros H. unfold framed, body. split.
  - rewrite length_app, intToBytes_length, H. reflexivity.
  - rewrite <- H at 1. rewrite firstn_app, firstn_all, Nat.sub_diag, firstn_O.
    apply app_nil_r.
Qed.

(** C10.  [sendString] reads its argument as a C string: the command is
    [c_str s].  For a command of fewer than 4092 bytes without [%], whatever
    the peer does, [sendString] hands to [sendto] between one and eight copies
    of one frame of 4096 bytes whose body is the command followed by NUL
    bytes.  The condition on [%] is needed: the command [NAME=a%%b.txt] goes
    out as [NAME=a%b.txt], and for [NAME=100%.txt] formatting has no defined
    result. *)
Theorem sendString_sends_command (E : environment) (s : list byte) (w : world)
  (Hlen : (List.length (c_str s) < 4092)%nat)
  (Hpercent : ~ In percent (c_str s)) :
  (exists f n,
     (1 <= n <= 8)%nat /\
     sent_of (sendString E s w) = Some (sent w ++ repeat f n) /\
     List.length f = 4096%nat /\
     body f = padded (c_str s)) /\
  (exists f',
     control_frame (lit "NAME=a%%b.txt") = Some f' /\
     body f' = padded (lit "NAME=a%b.txt") /\
     body f' <> padded (lit "NAME=a%%b.txt")) /\
  control_frame (lit "NAME=100%.txt") = None.
Proof.
  split; [|split].
  - pose proof (control_frame_plain s Hlen Hpercent) as Hf.
    destruct (body_framed (padded (c_str s))) as [Hl Hb]; [apply padded_length; lia|].
    destruct (sendString_loop_sends E 8 0 (framed (padded (c_str s)))
                (array_of 16 (back_buff_junk E (List.length (sent w)))) w)
      as (n & Hn & Hsent); [lia|reflexivity|].
    exists (framed (padded (c_str s))), n. repeat split; try lia; try assumption.
    rewrite (sendString_unfold E s _ w Hf).
    destruct (sendString_loop E 8 0 (framed (padded (c_str s))) _ w); exact Hsent.
  - eexists. split; [vm_compute; reflexivity|].
    split; [vm_compute; reflexivity|]. vm_compute. discriminate.
  - vm_compute. reflexivity.
Qed.

Lemma sendString_sends_command_witness :
  (exists f n,
     (1 <= n <= 8)%nat /\
     sent_of (sendString (peer all_OK x00) (lit "SIZE=5" ++ repeat x00 114) initial_world)
     = Some (sent initial_world ++ repeat f n) /\
     List.length f = 4096%nat /\
     body f = padded (c_str (lit "SIZE=5" ++ repeat x00 114))) /\
  (exists f',
     control_frame (lit "NAME=a%%b.txt") = Some f' /\
     body f' = padded (lit "NAME=a%b.txt") /\
     body f' <> padded (lit "NAME=a%%b.txt")) /\
  control_frame (lit "NAME=100%.txt") = None.
Proof.
  apply (sendString_sends_command (peer all_OK x00) (lit "SIZE=5" ++ repeat x00 114)
           initial_world).
  - vm_compute. lia.
  - vm_compute. intuition discriminate.
Defined.

(** * Further properties of the code *)

(** ** intToBytes and the decoding of a rate *)

Lemma uchar_to_byte (n : Z) : uchar (to_byte n) = n mod 256.
Proof.
  unfold uchar, to_byte.
  assert (Hr : 0 <= n mod 256 < 256) by (apply Z.mod_pos_bound; lia).
  destruct (Byte.of_N (Z.to_N (n mod 256))) as [b|] eqn:Hb.
  - apply Byte.to_of_N in Hb. rewrite Hb. lia.
  - apply Byte.of_N_None_iff in Hb. lia.
Qed.

Lemma uchar_inj (a b : byte) : uchar a = uchar b -> a = b.
Proof.
  unfold uchar. intros H. apply N2Z.inj in H.
  pose proof (Byte.of_to_N a) as Ha. pose proof (Byte.of_to_N b) as Hb.
  rewrite H in Ha. congruence.
Qed.

Lemma big_endian_4 (a b c d : byte) :
  big_endian [a; b; c; d]
  = 16777216 * uchar a + 65536 * uchar b + 256 * uchar c + uchar d.
Proof. unfold big_endian. cbn [fold_left]. lia. Qed.

Lemma big_endian_intToBytes (n : Z) :
  0 <= n < 2 ^ 32 -> big_endian (intToBytes n) = n.
Proof.
  intros H. rewrite intToBytes_eq, big_endian_4, !uchar_to_byte.
  rewrite !Z.shiftr_div_pow2 by lia.
  change (2 ^ 24) with 16777216. change (2 ^ 16) with 65536.
  change (2 ^ 8) with 256. change (2 ^ 0) with 1. change (2 ^ 32) with 4294967296 in H.
  Z.div_mod_to_equations. lia.
Qed.

(** [intToBytes] writes the four bytes of a 32-bit value most significant
    first: reading them back in that order gives the value, and only the
    low 32 bits of the argument matter. *)
Theorem intToBytes_round_trip (n : Z) :
  List.length (intToBytes n) = 4%nat /\
  big_endian (intToBytes n) = n mod 2 ^ 32 /\
  intToBytes (n mod 2 ^ 32) = intToBytes n.
Proof.
  assert (Hsame : intToBytes (n mod 2 ^ 32) = intToBytes n).
  { rewrite !intToBytes_eq.
    assert (Hb : forall k, 0 <= k <= 24 ->
               to_byte (Z.shiftr (n mod 2 ^ 32) k) = to_byte (Z.shiftr n k)).
    { intros k Hk.
      assert (Heq : Z.shiftr (n mod 2 ^ 32) k mod 256 = Z.shiftr n k mod 256).
      { change 256 with (2 ^ 8).
        rewrite <- !Z.land_ones by lia.
        apply Z.bits_inj'. intros i Hi.
        rewrite !Z.land_spec, !Z.shiftr_spec, Z.land_spec by lia.
        destruct (Z.ltb_spec i 8) as [Hlt|Hge].
        - rewrite (Z.ones_spec_low 32) by lia. now rewrite andb_true_r.
        - rewrite (Z.ones_spec_high 8) by lia. now rewrite !andb_false_r. }
      unfold to_byte. now rewrite Heq. }
    rewrite !Hb by lia. reflexivity. }
  split; [reflexivity|]. split; [|exact Hsame].
  rewrite <- Hsame. apply big_endian_intToBytes. apply Z.mod_pos_bound. lia.
Qed.

(** The loop of lines 112-113 and 228-229 inverts [intToBytes]: a reply
    that carries the four bytes of a rate behind its first four bytes is
    decoded to that rate. *)
Theorem rate_hint_inverts_intToBytes (tag rest : list byte) (bps : Z) :
  List.length tag = 4%nat ->
  0 <= bps < 2 ^ 32 ->
  rate_hint (tag ++ intToBytes bps ++ rest) = bps.
Proof.
  intros Ht Hb.
  rewrite rate_hint_big_endian
    by (rewrite !length_app, intToBytes_length; lia).
  rewrite skipn_app, skipn_all2, Ht, Nat.sub_diag by lia.
  cbn [app skipn]. rewrite <- (intToBytes_length bps) at 1.
  rewrite firstn_app, firstn_all, Nat.sub_diag, firstn_O, app_nil_r.
  now apply big_endian_intToBytes.
Qed.

Lemma rate_hint_inverts_intToBytes_witness :
  rate_hint (lit "OKSS" ++ intToBytes 125000 ++ repeat x00 8) = 125000.
Proof.
  apply rate_hint_inverts_intToBytes.
  - reflexivity.
  - lia.
Defined.
